(** * dwata: source registry and schema reflection

    A shallow embedding of

      - [backend/utils/settings.py]      ([get_all_sources], [get_source_settings]),
      - [backend/exceptions/base.py]     ([ExceptionBase], the structured error),
      - [old_project/backend/apps/tables/workers.py]  ([refresh]),

    and the properties of the registry and of the reflection pass.

    Conventions.  Python strings are [string] (ASCII).  A Python [dict] that
    is iterated is an association list in insertion order; the settings
    object, which is only ever probed by attribute name ([hasattr],
    [getattr], [settings.DATABASES]), is a finite map from attribute names
    to sections.  A descriptor is the Python list the code builds, element
    by element.  Exceptions are values of [exn]; a computation that may
    raise returns a [result].  Coroutines are run to completion one after
    the other, so [await f()] is the call [f()].  A global name that the
    module does not bind raises [NameError] where it is read. *)

From stdpp Require Import base strings list gmap.
From Stdlib Require Import ZArith Lia.

Local Open Scope string_scope.
Local Open Scope list_scope.

(** ** Python values and exceptions *)

(** The values that occur as elements of a descriptor: a string, or the
    attributes dictionary ([{}] and [{"is_system_db": True}]). *)
Inductive pyval : Type :=
| PStr (s : string)
| PDict (d : list (string * bool)).

#[global] Instance pyval_eq_dec : EqDecision pyval.
Proof. solve_decision. Defined.

(** The exceptions the modules can raise.  [ExceptionBase] is the class
    of [exceptions/base.py]: an error code, an optional detail, and a status
    code.  [External] stands for whatever a collaborator (the settings
    loader, [urlparse], the database driver) raises. *)
Inductive exn : Type :=
| IndexError
| KeyError (key : string)
| AttributeError (name : string)
| NameError (name : string)
| TypeError
| ExceptionBase (error_code : string) (detail : option string) (status_code : Z)
| External (what : string).

#[global] Instance exn_eq_dec : EqDecision exn.
Proof. solve_decision. Defined.

(** [ExceptionBase.json_response]: the body
    [{"detail": {"error_code": .., "message": ..}}] and the status code. *)
Definition json_response (e : exn) : option (string * option string * Z) :=
  match e with
  | ExceptionBase error_code detail status_code =>
      Some (error_code, detail, status_code)
  | _ => None
  end.

(** An exception is structured when it is an [ExceptionBase]. *)
Definition structured (e : exn) : bool :=
  match e with
  | ExceptionBase _ _ _ => true
  | _ => false
  end.

Inductive result (A : Type) : Type :=
| Return (a : A)
| Raise (e : exn).
Arguments Return {A} a.
Arguments Raise {A} e.

Definition rbind {A B : Type} (c : result A) (k : A → result B) : result B :=
  match c with
  | Return a => k a
  | Raise e => Raise e
  end.

Declare Scope py_scope.
Delimit Scope py_scope with py.
Notation "x <- c ;; k" := (rbind c (fun x => k))
  (at level 100, c at next level, right associativity) : py_scope.
Local Open Scope py_scope.

(** ** Lists and dictionaries *)

(** [l[i]] for a list. *)
Definition index {A : Type} (l : list A) (i : nat) : result A :=
  match l !! i with
  | Some a => Return a
  | None => Raise IndexError
  end.

(** [d[k]] for a dictionary with string keys. *)
Fixpoint dict_get {V : Type} (d : list (string * V)) (k : string) : result V :=
  match d with
  | [] => Raise (KeyError k)
  | (k', v) :: rest => if bool_decide (k' = k) then Return v else dict_get rest k
  end.

(** [d[k]] where the key is a Python value: a dictionary is not hashable. *)
Definition dict_get_py {V : Type} (d : list (string * V)) (k : pyval) : result V :=
  match k with
  | PStr s => dict_get d s
  | PDict _ => Raise TypeError
  end.

Definition keys {V : Type} (d : list (string * V)) : list string := d.*1.

(** [str.upper] on ASCII. *)
Definition upper_ascii (c : Ascii.ascii) : Ascii.ascii :=
  let n := Ascii.nat_of_ascii c in
  if (97 <=? n)%nat && (n <=? 122)%nat then Ascii.ascii_of_nat (n - 32) else c.

Fixpoint upper (s : string) : string :=
  match s with
  | EmptyString => EmptyString
  | String c rest => String (upper_ascii c) (upper rest)
  end.

(** [v.upper()] for a Python value. *)
Definition py_upper (v : pyval) : result string :=
  match v with
  | PStr s => Return (upper s)
  | PDict _ => Raise (AttributeError "upper")
  end.

(** ** The settings object *)

(** One entry of a section, e.g. [{"db_url": "postgres://host/db"}]. *)
Abbreviation sdict := (list (string * string)).
(** A section: label to entry, in the order [items()] enumerates. *)
Abbreviation section := (list (string * sdict)).
(** The settings object: attribute name to section. *)
Abbreviation Settings := (gmap string section).

(** [getattr(settings, name)]. *)
Definition getattr (settings : Settings) (name : string) : result section :=
  match settings !! name with
  | Some sec => Return sec
  | None => Raise (AttributeError name)
  end.

Abbreviation descriptor := (list pyval).

(** The entry [get_all_sources] always adds. *)
Definition dwata_meta_descriptor : descriptor :=
  [PStr "dwata_meta"; PStr "database"; PStr "sqlite"; PDict [("is_system_db", true)]].

(** The settings [get_source_settings] returns for ["dwata_meta"]. *)
Definition dwata_meta_settings : sdict := [("db_url", "sqlite:///dwata_meta.db")].

(** ** The metadata database and the live sources *)

(** A row of [data_sources]. *)
Record DataSourceRecord : Type := mkDataSource {
  ds_id : Z;
  ds_label : string
}.

(** The values [refresh] inserts into [tables]. *)
Record TableRecord : Type := mkTable {
  data_source_id : Z;
  table_name : string;
  attributes : list string;
  created_at : Z
}.

#[global] Instance TableRecord_eq_dec : EqDecision TableRecord.
Proof. solve_decision. Defined.

(** What [refresh] reads and changes: the two tables of the metadata
    database, the connections [connect_database] has opened and nobody has
    closed (each named by the URL it was opened on), and the number of
    times the clock has been read. *)
Record World : Type := mkWorld {
  data_sources_rows : list DataSourceRecord;
  tables_rows : list TableRecord;
  open_conns : list string;
  clock : nat
}.

(** A computation on the world that may raise; the world it leaves behind
    is kept when it raises. *)
Definition M (A : Type) : Type := World → result A * World.

Definition ret {A : Type} (a : A) : M A := fun w => (Return a, w).

Definition bind {A B : Type} (c : M A) (k : A → M B) : M B :=
  fun w =>
    match c w with
    | (Return a, w') => k a w'
    | (Raise e, w') => (Raise e, w')
    end.

Definition lift {A : Type} (r : result A) : M A := fun w => (r, w).

Notation "x <~ c ;; k" := (bind c (fun x => k))
  (at level 100, c at next level, right associativity) : py_scope.

(** The first row of [data_sources] with the label, if there is one. *)
Definition data_source_of (label : string) (w : World) : option DataSourceRecord :=
  snd <$> list_find (fun r => ds_label r = label) (data_sources_rows w).

(** The object the global name [dwata_meta_db] would hold.  The module
    [workers.py] binds the names [datetime], [MetaData], [get_all_sources],
    [get_source_settings], [connect_database], [data_sources], [tables] and
    [refresh], and no other; [dwata_meta_db] is neither among them nor a
    builtin, so there is no such object. *)
Inductive database_handle : Type := .

(** Reading the global name [dwata_meta_db], at lines 20 and 34. *)
Definition dwata_meta_db : M database_handle :=
  fun w => (Raise (NameError "dwata_meta_db"), w).

(** Lines 20-22:
    [dwata_meta_db.fetch_one(data_sources.select().where(label == l))]. *)
Definition fetch_one (label : string) : M (option DataSourceRecord) :=
  db <~ dwata_meta_db ;;
  match db return M (option DataSourceRecord) with end.

(** Line 34: [dwata_meta_db.execute(query)], the query being the insertion
    of the row built at lines 28-33. *)
Definition execute_insert (row : TableRecord) : M unit :=
  db <~ dwata_meta_db ;;
  match db return M unit with end.

(** A connection as [connect_database] hands it out: what its [close()]
    does, return or raise. *)
Record Connection : Type := mkConnection {
  close : result unit
}.

Fixpoint remove_first (c : string) (l : list string) : list string :=
  match l with
  | [] => []
  | c' :: rest => if bool_decide (c' = c) then rest else c' :: remove_first c rest
  end.

(** Line 36: [conn.close()], for the connection opened on [url]; it is no
    longer open when [close()] returns. *)
Definition conn_close (url : string) (conn : Connection) : M unit :=
  fun w =>
    match close conn with
    | Return _ =>
        (Return tt,
         mkWorld (data_sources_rows w) (tables_rows w)
                 (remove_first url (open_conns w)) (clock w))
    | Raise e => (Raise e, w)
    end.

(** What [refresh] returns: [False], or [{"status": "success"}]. *)
Inductive refresh_value : Type :=
| RFalse
| RStatusSuccess.

(** ** The two modules *)

Section Dwata.

(** The keys of [services.all_services], in the order [keys()] gives. *)
Variable all_services : list string.

(** [urlparse(url).scheme]. *)
Variable urlparse_scheme : string → result string.

(** What [await get_settings()] gives: the settings object, or the
    exception a settings loader that cannot load raises. *)
Variable get_settings : result Settings.

(** [connect_database(db_label=url)]: the connection, or the exception
    raised when none can be opened. *)
Variable connect_database : string → result Connection.

(** [MetaData(bind=engine).reflect()] then [meta.tables]: the names of the
    tables of the database at that URL, in the order [items()] gives. *)
Variable reflect : string → result (list string).

(** [datetime.utcnow()] at its n-th reading. *)
Variable utcnow : nat → Z.

(** *** utils/settings.py *)

(** Lines 10-13: one descriptor per entry of [settings.DATABASES]. *)
Fixpoint database_descriptors (items : section) : result (list descriptor) :=
  match items with
  | [] => Return []
  | (label, value) :: rest =>
      url <- dict_get value "db_url" ;;
      scheme <- urlparse_scheme url ;;
      ds <- database_descriptors rest ;;
      Return ([PStr label; PStr "database"; PStr scheme; PDict []] :: ds)
  end.

(** Lines 19-22: the descriptors of one service section. *)
Definition section_descriptors (sname : string) (sec : section) : list descriptor :=
  (fun '(label, _) => [PStr label; PStr "service"; PStr sname]) <$> sec.

(** Lines 16-22: the loop over [all_services.keys()]. *)
Fixpoint service_descriptors (settings : Settings) (names : list string)
  : list descriptor :=
  match names with
  | [] => []
  | sname :: rest =>
      match settings !! upper sname with
      | Some sec => section_descriptors sname sec
      | None => []
      end ++ service_descriptors settings rest
  end.

(** Lines 6-23: the databases, the system database, then the services. *)
Definition get_all_sources : result (list descriptor) :=
  settings <- get_settings ;;
  items <- getattr settings "DATABASES" ;;
  dbs <- database_descriptors items ;;
  let databases := dbs ++ [dwata_meta_descriptor] in
  let services := service_descriptors settings all_services in
  Return (databases ++ services).

(** [[x for x in all_sources if x[0] == source_label]]. *)
Fixpoint select_label (all_sources : list descriptor) (source_label : string)
  : result (list descriptor) :=
  match all_sources with
  | [] => Return []
  | x :: rest =>
      x0 <- index x 0 ;;
      sel <- select_label rest source_label ;;
      Return (if bool_decide (x0 = PStr source_label) then x :: sel else sel)
  end.

(** [[x for x in all_sources if x[0] == source_label][0]]. *)
Definition requested (all_sources : list descriptor) (source_label : string)
  : result descriptor :=
  sel <- select_label all_sources source_label ;;
  index sel 0.

(** The value is [None] when the kind is neither of the two. *)
Definition get_source_settings (source_label : string) : result (option sdict) :=
  if bool_decide (source_label = "dwata_meta") then
    Return (Some dwata_meta_settings)
  else
    settings <- get_settings ;;
    all_sources <- get_all_sources ;;
    requested_source <- requested all_sources source_label ;;
    kind <- index requested_source 1 ;;
    if bool_decide (kind = PStr "database") then
      items <- getattr settings "DATABASES" ;;
      label <- index requested_source 0 ;;
      value <- dict_get_py items label ;;
      Return (Some value)
    else
      kind <- index requested_source 1 ;;
      if bool_decide (kind = PStr "service") then
        sname <- index requested_source 2 ;;
        attr <- py_upper sname ;;
        items <- getattr settings attr ;;
        label <- index requested_source 0 ;;
        value <- dict_get_py items label ;;
        Return (Some value)
      else
        Return None.

(** *** apps/tables/workers.py *)

(** Line 23: [connect_database]; on success the connection is open. *)
Definition connect (url : string) : M Connection :=
  fun w =>
    match connect_database url with
    | Return conn =>
        (Return conn,
         mkWorld (data_sources_rows w) (tables_rows w) (url :: open_conns w) (clock w))
    | Raise e => (Raise e, w)
    end.

(** [datetime.utcnow()]. *)
Definition now : M Z :=
  fun w =>
    (Return (utcnow (clock w)),
     mkWorld (data_sources_rows w) (tables_rows w) (open_conns w) (S (clock w))).

(** [data_source["id"]]: [None] cannot be subscripted. *)
Definition row_id (data_source : option DataSourceRecord) : result Z :=
  match data_source with
  | Some r => Return (ds_id r)
  | None => Raise TypeError
  end.

(** [source_settings["db_url"]]. *)
Definition db_url_of (source_settings : option sdict) : result string :=
  match source_settings with
  | Some d => dict_get d "db_url"
  | None => Raise TypeError
  end.

(** Lines 27-34: one insertion per reflected table. *)
Fixpoint insert_tables (data_source : option DataSourceRecord) (names : list string)
  : M unit :=
  match names with
  | [] => ret tt
  | name :: rest =>
      id <~ lift (row_id data_source) ;;
      t <~ now ;;
      _ <~ execute_insert (mkTable id name [] t) ;;
      insert_tables data_source rest
  end.

(** Lines 13-36: the loop over the labels, and line 38. *)
Fixpoint refresh_loop (all_sources : list descriptor) (source_label_list : list string)
  : M refresh_value :=
  match source_label_list with
  | [] => ret RStatusSuccess
  | source_label :: rest =>
      requested_source <~ lift (requested all_sources source_label) ;;
      source_settings <~ lift (get_source_settings source_label) ;;
      kind <~ lift (index requested_source 1) ;;
      if negb (bool_decide (kind = PStr "database")) then
        ret RFalse
      else
        data_source <~ fetch_one source_label ;;
        url <~ lift (db_url_of source_settings) ;;
        conn <~ connect url ;;
        names <~ lift (reflect url) ;;
        _ <~ insert_tables data_source names ;;
        _ <~ conn_close url conn ;;
        refresh_loop all_sources rest
  end.

Definition refresh (source_label_list : list string) : M refresh_value :=
  all_sources <~ lift get_all_sources ;;
  refresh_loop all_sources source_label_list.

End Dwata.

(** ** A concrete environment

    The scheme step of [urllib.parse.urlsplit], for URLs without leading
    blanks: the text before the first colon when it starts with a letter
    and consists of letters, digits, [+], [-] and [.], in lower case;
    empty otherwise. *)

Definition in_range (lo hi : nat) (c : Ascii.ascii) : bool :=
  let n := Ascii.nat_of_ascii c in (lo <=? n)%nat && (n <=? hi)%nat.

Definition is_alpha (c : Ascii.ascii) : bool := in_range 65 90 c || in_range 97 122 c.

Definition is_scheme_char (c : Ascii.ascii) : bool :=
  is_alpha c || in_range 48 57 c || in_range 43 43 c || in_range 45 46 c.

Definition lower_ascii (c : Ascii.ascii) : Ascii.ascii :=
  if in_range 65 90 c then Ascii.ascii_of_nat (Ascii.nat_of_ascii c + 32) else c.

Fixpoint lower (s : string) : string :=
  match s with
  | EmptyString => EmptyString
  | String c rest => String (lower_ascii c) (lower rest)
  end.

Fixpoint all_chars (p : Ascii.ascii → bool) (s : string) : bool :=
  match s with
  | EmptyString => true
  | String c rest => p c && all_chars p rest
  end.

(** [url[:url.find(":")]], when there is a colon. *)
Fixpoint before_colon (s : string) : option string :=
  match s with
  | EmptyString => None
  | String c rest =>
      if in_range 58 58 c then Some EmptyString else String c <$> before_colon rest
  end.

Definition url_scheme (url : string) : result string :=
  match before_colon url with
  | Some (String c rest) =>
      if is_alpha c && all_chars is_scheme_char (String c rest)
      then Return (lower (String c rest))
      else Return ""
  | _ => Return ""
  end.

(** Settings with one database, ["sales"]. *)
Definition cfg_sales : Settings :=
  {[ "DATABASES" := [("sales", [("db_url", "postgres://host/salesdb")])] ]}.

(** Settings whose database section uses the label ["dwata_meta"], as does
    a section of the service ["github"]. *)
Definition cfg_clash : Settings :=
  <[ "GITHUB" := [("dwata_meta", [("token", "t0")])] ]>
  {[ "DATABASES" := [("dwata_meta", [("db_url", "postgres://host/meta")])] ]}.

(** Settings with one database and one service entry, both labelled ["crm"],
    and a second service entry. *)
Definition cfg_crm : Settings :=
  <[ "GITHUB" := [("gh", [("token", "t1")]); ("crm", [("token", "t2")])] ]>
  {[ "DATABASES" := [("crm", [("db_url", "mysql://host/crm")])] ]}.

(** A metadata database that knows ["sales"] as data source 7. *)
Definition world_sales : World := mkWorld [mkDataSource 7 "sales"] [] [] 0.

(** A metadata database that knows ["crm"] as data source 3. *)
Definition world_crm : World := mkWorld [mkDataSource 3 "crm"] [] [] 0.

(** A metadata database without any data source. *)
Definition world_empty : World := mkWorld [] [] [] 0.

(** Every database can be reached, and its connection closes. *)
Definition always_connect (url : string) : result Connection :=
  Return (mkConnection (Return tt)).

(** The sales database has the tables [a] and [b]. *)
Definition reflect_ab (url : string) : result (list string) := Return ["a"; "b"].

(** A clock that starts at 1000 and advances by one at each reading. *)
Definition ticking (n : nat) : Z := (1000 + Z.of_nat n)%Z.

(** Settings whose second database entry has no ["db_url"]. *)
Definition cfg_broken : Settings :=
  {[ "DATABASES" := [("sales", [("db_url", "postgres://host/salesdb")]);
                     ("legacy", [("url", "mysql://host/legacy")])] ]}.

(** A metadata database that knows ["dwata_meta"] as data source 1. *)
Definition world_meta : World := mkWorld [mkDataSource 1 "dwata_meta"] [] [] 0.


(** ** Reading a registry *)

(** A descriptor carries the label [l]: [x[0] == l]. *)
Definition has_label (l : string) (d : descriptor) : Prop := d !! 0%nat = Some (PStr l).

#[global] Instance has_label_dec (l : string) (d : descriptor) : Decision (has_label l d).
Proof. unfold has_label. apply _. Defined.

(** A descriptor is of the kind [k]: [x[1] == k]. *)
Definition has_kind (k : string) (d : descriptor) : Prop := d !! 1%nat = Some (PStr k).


(** The label resolves, through the registry, to a database whose settings
    give the URL [url]: lines 14-17 of [refresh] pass, and line 23 connects
    to [url]. *)
Definition database_at (all_services : list string)
           (urlparse_scheme : string → result string) (get_settings : result Settings)
           (label url : string) : Prop :=
  ∃ all_sources d source_settings,
    get_all_sources all_services urlparse_scheme get_settings = Return all_sources ∧
    requested all_sources label = Return d ∧
    has_kind "database" d ∧
    get_source_settings all_services urlparse_scheme get_settings label
      = Return source_settings ∧
    db_url_of source_settings = Return url.

(** The keys of the section a service name selects; none when the settings
    have no such attribute. *)
Definition section_keys (settings : Settings) (sname : string) : list string :=
  match settings !! upper sname with
  | Some sec => keys sec
  | None => []
  end.

(** ** apps/saved_query/models.py *)

Section SavedQuery.

(** The Python values a row dictionary holds. *)
Variable V : Type.

(** The [datetime] with a given reading of the clock, and the [bytes] with
    given content, as values. *)
Variable of_datetime : Z → V.
Variable of_bytes : string → V.

(** [RapidJSONEncoder().encode(v)]: the JSON text, or the exception the
    encoder raises on a value it cannot serialise. *)
Variable json_encode : V → result string.

(** [values[k]] for the row dictionary. *)
Definition item (values : gmap string V) (k : string) : result V :=
  match values !! k with
  | Some v => Return v
  | None => Raise (KeyError k)
  end.

(** Lines 26 and 32:
    [values["query_specification"] =
       RapidJSONEncoder().encode(values["query_specification"]).encode("utf-8")],
    then [return values].  The first component is what the call returns or
    raises, the second the dictionary the caller holds afterwards (the
    functions assign into the dictionary they are given). *)
Definition encode_specification (values : gmap string V)
  : result (gmap string V) * gmap string V :=
  match item values "query_specification" with
  | Raise e => (Raise e, values)
  | Return q =>
      match json_encode q with
      | Raise e => (Raise e, values)
      | Return text =>
          let values' := <["query_specification" := of_bytes text]> values in
          (Return values', values')
      end
  end.

(** Lines 24-27, with [now] the reading [datetime.utcnow()] gives. *)
Definition saved_query_pre_insert (now : Z) (values : gmap string V)
  : result (gmap string V) * gmap string V :=
  encode_specification (<["created_at" := of_datetime now]> values).

(** Lines 30-33. *)
Definition saved_query_pre_update (now : Z) (values : gmap string V)
  : result (gmap string V) * gmap string V :=
  encode_specification (<["modified_at" := of_datetime now]> values).

End SavedQuery.

(** Row values for the examples. *)
Inductive rowval : Type :=
| RStr (s : string)
| RBytes (b : string)
| RDatetime (t : Z).

(** The text of a JSON string: a backslash before each double quote and
    each backslash. *)
Fixpoint escape_json (s : string) : string :=
  match s with
  | EmptyString => EmptyString
  | String c rest =>
      if in_range 34 34 c || in_range 92 92 c
      then String (Ascii.ascii_of_nat 92) (String c (escape_json rest))
      else String c (escape_json rest)
  end.

(** An encoder for the examples: a string, and bytes read as text, become
    a JSON string; a datetime is refused. *)
Definition quote_json (v : rowval) : result string :=
  match v with
  | RStr s | RBytes s =>
      Return (String (Ascii.ascii_of_nat 34)
                     (escape_json s +:+ String (Ascii.ascii_of_nat 34) EmptyString))
  | RDatetime _ => Raise TypeError
  end.

(** ** utils/app.py *)

(** The values the middleware stores on [request.app.state]. *)
Inductive stateval : Type :=
| SBool (b : bool)
| SStr (s : string).

(** [s.startswith(p)]. *)
Fixpoint starts_with (p s : string) : bool :=
  match p, s with
  | EmptyString, _ => true
  | String a p', String b s' => bool_decide (a = b) && starts_with p' s'
  | String _ _, EmptyString => false
  end.

(** [needle in haystack] for strings. *)
Fixpoint contains (needle haystack : string) : bool :=
  starts_with needle haystack ||
  match haystack with
  | EmptyString => false
  | String _ rest => contains needle rest
  end.

(** Lines 10-12: the attributes set on [request.app.state]. *)
Definition mark_dwata_app (state : gmap string stateval) (path : string)
  : gmap string stateval :=
  if contains "api/item/0/admin_meta_note" path then
    <["DWATA_APP_NAME" := SStr "note"]> (<["IS_DWATA_APP" := SBool true]> state)
  else state.

Section Middleware.

(** What [call_next] returns, and [call_next] itself: it is given the
    request (its path and the application state it points to) and leaves
    a response, or raises, and an application state. *)
Variable Response : Type.
Variable call_next :
  gmap string stateval → string → result Response * gmap string stateval.

(** [DwataAppMiddleware.dispatch]. *)
Definition dispatch (state : gmap string stateval) (path : string)
  : result Response * gmap string stateval :=
  call_next (mark_dwata_app state path) path.

End Middleware.

(** A handler for the examples: it answers with the path it was asked for
    and leaves the application state alone. *)
Definition echo_handler (state : gmap string stateval) (path : string)
  : result string * gmap string stateval :=
  (Return path, state).

(** An application state that is marked as the note app. *)
Definition marked_state : gmap string stateval :=
  <["DWATA_APP_NAME" := SStr "note"]> {[ "IS_DWATA_APP" := SBool true ]}.

(** The JSON text the example encoder gives, empty when it refuses. *)
Definition json_text (v : rowval) : string :=
  match quote_json v with
  | Return text => text
  | Raise _ => ""
  end.

(** A row with a label and a specification, and one without specification. *)
Definition row_q1 : gmap string rowval :=
  <["query_specification" := RStr "select"]> {[ "label" := RStr "q1" ]}.

Definition row_bare : gmap string rowval := {[ "label" := RStr "q1" ]}.

(** ** Facts on lists and dictionaries *)

Lemma rbind_Return {A B : Type} (c : result A) (k : A → result B) (b : B) :
  rbind c k = Return b → ∃ a, c = Return a ∧ k a = Return b.
Proof. destruct c as [a|e]; simpl; [eauto | discriminate]. Qed.

Lemma dict_get_keys {V : Type} (d : list (string * V)) (k : string) :
  k ∈ keys d → ∃ v, dict_get d k = Return v.
Proof.
  unfold keys. induction d as [|[k' v] d IH]; simpl; intros Hin.
  - by apply elem_of_nil in Hin.
  - case_bool_decide as Hk; [eauto |].
    apply elem_of_cons in Hin as [->|Hin]; [done | by apply IH].
Qed.

Lemma dict_get_Return_keys {V : Type} (d : list (string * V)) (k : string) (v : V) :
  dict_get d k = Return v → k ∈ keys d.
Proof.
  unfold keys. induction d as [|[k' v'] d IH]; simpl; [discriminate |].
  case_bool_decide as Hk; intros H.
  - subst. apply elem_of_cons. by left.
  - apply elem_of_cons. right. by apply IH.
Qed.

(** The comprehension is a filter when every element has a first component. *)
Lemma select_label_filter (all_sources : list descriptor) (l : string) :
  Forall (fun d => is_Some (d !! 0%nat)) all_sources →
  select_label all_sources l = Return (filter (has_label l) all_sources).
Proof.
  induction 1 as [|d ds [x0 Hx0] _ IH]; simpl; [done |].
  unfold index. rewrite Hx0. simpl. rewrite IH. simpl.
  rewrite filter_cons.
  case_bool_decide as Hb; case_decide as Hd; try done; unfold has_label in Hd.
  - exfalso. apply Hd. by rewrite Hx0, Hb.
  - exfalso. apply Hb. congruence.
Qed.

Lemma requested_head (all_sources : list descriptor) (l : string) :
  Forall (fun d => is_Some (d !! 0%nat)) all_sources →
  requested all_sources l =
    match head (filter (has_label l) all_sources) with
    | Some d => Return d
    | None => Raise IndexError
    end.
Proof.
  intros Hall. unfold requested. rewrite (select_label_filter _ _ Hall). simpl.
  unfold index. by rewrite <- head_lookup.
Qed.

(** ** The shape of the registry *)

Section Registry.

Variable all_services : list string.
Variable urlparse_scheme : string → result string.
Variable get_settings : result Settings.

Lemma database_descriptors_shape (items : section) (dbs : list descriptor) :
  database_descriptors urlparse_scheme items = Return dbs →
  Forall2 (fun kv d => ∃ s, d = [PStr kv.1; PStr "database"; PStr s; PDict []])
          items dbs.
Proof.
  revert dbs. induction items as [|[label value] rest IH]; simpl; intros dbs H.
  - injection H as <-. constructor.
  - apply rbind_Return in H as (url & _ & H).
    apply rbind_Return in H as (scheme & _ & H).
    apply rbind_Return in H as (ds & Hds & H).
    injection H as <-. constructor; [by exists scheme | by apply IH].
Qed.

Lemma database_descriptors_label (items : section) (dbs : list descriptor) (l : string) :
  database_descriptors urlparse_scheme items = Return dbs →
  (∃ d, d ∈ dbs ∧ has_label l d) ↔ l ∈ keys items.
Proof.
  intros H. apply database_descriptors_shape in H. unfold keys.
  induction H as [|[k v] d items dbs [s ->] _ IH]; simpl.
  - split; [intros (d & Hd & _) | intros Hd]; by apply elem_of_nil in Hd.
  - rewrite elem_of_cons, <- IH. split.
    + intros (d & Hd & Hl). apply elem_of_cons in Hd as [->|Hd].
      * left. unfold has_label in Hl. simpl in Hl. congruence.
      * right. eauto.
    + intros [->|(d & Hd & Hl)].
      * eexists. split; [apply elem_of_cons; by left | done].
      * exists d. split; [apply elem_of_cons; by right | done].
Qed.

Lemma database_descriptors_kind (items : section) (dbs : list descriptor) :
  database_descriptors urlparse_scheme items = Return dbs →
  Forall (fun d => length d = 4%nat ∧ has_kind "database" d) dbs.
Proof.
  intros H. apply database_descriptors_shape in H.
  induction H as [|kv d items dbs [s ->] _ IH]; constructor; done.
Qed.

Lemma section_descriptors_elem (sname : string) (sec : section) (d : descriptor) :
  d ∈ section_descriptors sname sec ↔
  ∃ l, l ∈ keys sec ∧ d = [PStr l; PStr "service"; PStr sname].
Proof.
  unfold section_descriptors, keys. rewrite list_elem_of_fmap. split.
  - intros ([l v] & -> & Hin). exists l. split; [|done].
    apply list_elem_of_fmap. by exists (l, v).
  - intros (l & Hin & ->). apply list_elem_of_fmap in Hin as ([l' v] & -> & Hin).
    by exists (l', v).
Qed.

Lemma service_descriptors_elem (settings : Settings) (names : list string)
      (d : descriptor) :
  d ∈ service_descriptors settings names ↔
  ∃ sname sec l, sname ∈ names ∧ settings !! upper sname = Some sec ∧
                 l ∈ keys sec ∧ d = [PStr l; PStr "service"; PStr sname].
Proof.
  induction names as [|sname rest IH]; simpl.
  - split; [intros H | intros (? & ? & ? & H & _)]; by apply elem_of_nil in H.
  - rewrite elem_of_app, IH. split.
    + intros [H|(s & sec & l & Hs & Hsec & Hl & ->)].
      * destruct (settings !! upper sname) as [sec|] eqn:Hsec;
          [|by apply elem_of_nil in H].
        apply section_descriptors_elem in H as (l & Hl & ->).
        exists sname, sec, l. split_and!; try done. apply elem_of_cons; by left.
      * exists s, sec, l. split_and!; try done. apply elem_of_cons; by right.
    + intros (s & sec & l & Hs & Hsec & Hl & ->).
      apply elem_of_cons in Hs as [->|Hs].
      * left. rewrite Hsec. apply section_descriptors_elem. eauto.
      * right. exists s, sec, l. done.
Qed.

Lemma service_descriptors_kind (settings : Settings) (names : list string) :
  Forall (fun d => length d = 3%nat ∧ has_kind "service" d)
         (service_descriptors settings names).
Proof.
  apply Forall_forall. intros d Hd.
  apply service_descriptors_elem in Hd as (s & sec & l & _ & _ & _ & ->). done.
Qed.

(** What a registry that builds is made of. *)
Lemma get_all_sources_inv (all_sources : list descriptor) :
  get_all_sources all_services urlparse_scheme get_settings = Return all_sources →
  ∃ settings items dbs,
    get_settings = Return settings ∧
    settings !! "DATABASES" = Some items ∧
    database_descriptors urlparse_scheme items = Return dbs ∧
    all_sources =
      (dbs ++ [dwata_meta_descriptor]) ++ service_descriptors settings all_services.
Proof.
  unfold get_all_sources. intros H.
  apply rbind_Return in H as (settings & Hs & H).
  apply rbind_Return in H as (items & Hi & H).
  apply rbind_Return in H as (dbs & Hd & H).
  injection H as <-. exists settings, items, dbs. split_and!; try done.
  unfold getattr in Hi. destruct (settings !! "DATABASES"); congruence.
Qed.

Lemma get_all_sources_first (all_sources : list descriptor) :
  get_all_sources all_services urlparse_scheme get_settings = Return all_sources →
  Forall (fun d => is_Some (d !! 0%nat)) all_sources.
Proof.
  intros H. apply get_all_sources_inv in H as (settings & items & dbs & _ & _ & Hd & ->).
  apply database_descriptors_kind in Hd.
  pose proof (service_descriptors_kind settings all_services) as Hs.
  rewrite !Forall_app. split_and!.
  - eapply Forall_impl; [exact Hd |]. intros d [Hlen _].
    apply lookup_lt_is_Some. lia.
  - repeat constructor. by eexists.
  - eapply Forall_impl; [exact Hs |]. intros d [Hlen _].
    apply lookup_lt_is_Some. lia.
Qed.

End Registry.

(** ** First matches *)

Lemma filter_none {A : Type} (P : A → Prop) `{!∀ x, Decision (P x)} (l : list A) :
  (∀ x, x ∈ l → ¬ P x) → filter P l = [].
Proof.
  induction l as [|x l IH]; intros Hno; [done |].
  rewrite filter_cons_False.
  - apply IH. intros y Hy. apply Hno, elem_of_cons. by right.
  - apply Hno, elem_of_cons. by left.
Qed.

Lemma head_filter_elem {A : Type} (P : A → Prop) `{!∀ x, Decision (P x)}
      (l : list A) (x : A) :
  head (filter P l) = Some x → x ∈ l ∧ P x.
Proof.
  intros Hh. apply head_Some_elem_of in Hh. by apply list_elem_of_filter in Hh as [? ?].
Qed.

Lemma head_filter_None {A : Type} (P : A → Prop) `{!∀ x, Decision (P x)} (l : list A) :
  head (filter P l) = None → ∀ x, x ∈ l → ¬ P x.
Proof.
  intros Hh x Hx HP. apply head_None in Hh.
  by apply (filter_nil_not_elem_of P l x).
Qed.

Lemma head_filter_app_l {A : Type} (P : A → Prop) `{!∀ x, Decision (P x)}
      (l1 l2 : list A) (x : A) :
  x ∈ l1 → P x → head (filter P (l1 ++ l2)) = head (filter P l1).
Proof.
  intros Hx HP. rewrite filter_app.
  destruct (filter P l1) as [|y l] eqn:Hf; [|done].
  exfalso. by apply (filter_nil_not_elem_of P l1 x).
Qed.

(** ** Resolving a label *)

Section Resolution.

Variable all_services : list string.
Variable urlparse_scheme : string → result string.
Variable get_settings : result Settings.

Local Abbreviation registry := (get_all_sources all_services urlparse_scheme get_settings).

Lemma requested_Return (all_sources : list descriptor) (l : string) (d : descriptor) :
  registry = Return all_sources →
  requested all_sources l = Return d →
  d ∈ all_sources ∧ has_label l d.
Proof.
  intros Hreg Hd. apply get_all_sources_first in Hreg.
  rewrite (requested_head _ _ Hreg) in Hd.
  destruct (head (filter (has_label l) all_sources)) as [d'|] eqn:Hh; [|done].
  injection Hd as ->. by apply head_filter_elem in Hh.
Qed.

Lemma requested_absent (all_sources : list descriptor) (l : string) :
  registry = Return all_sources →
  (∀ d, d ∈ all_sources → ¬ has_label l d) →
  requested all_sources l = Raise IndexError.
Proof.
  intros Hreg Hno. apply get_all_sources_first in Hreg.
  rewrite (requested_head _ _ Hreg). by rewrite (filter_none _ _ Hno).
Qed.

(** A label carried by a database descriptor resolves to a database
    descriptor: they come first. *)
Lemma requested_database_first (settings : Settings) (dbs : list descriptor)
      (l : string) (d0 : descriptor) :
  registry = Return ((dbs ++ [dwata_meta_descriptor])
                       ++ service_descriptors settings all_services) →
  d0 ∈ dbs ++ [dwata_meta_descriptor] → has_label l d0 →
  ∃ d, requested ((dbs ++ [dwata_meta_descriptor])
                    ++ service_descriptors settings all_services) l = Return d ∧
       d ∈ dbs ++ [dwata_meta_descriptor] ∧ has_label l d.
Proof.
  intros Hreg Hin Hl. apply get_all_sources_first in Hreg.
  rewrite (requested_head _ _ Hreg).
  rewrite (head_filter_app_l _ _ _ d0 Hin Hl).
  destruct (head (filter (has_label l) (dbs ++ [dwata_meta_descriptor])))
    as [d|] eqn:Hh.
  - exists d. split; [done |]. by apply head_filter_elem in Hh.
  - exfalso. by apply (head_filter_None _ _ Hh d0).
Qed.

Lemma databases_kind (items : section) (dbs : list descriptor) (d : descriptor) :
  database_descriptors urlparse_scheme items = Return dbs →
  d ∈ dbs ++ [dwata_meta_descriptor] → has_kind "database" d.
Proof.
  intros Hd Hin. apply database_descriptors_kind in Hd.
  apply elem_of_app in Hin as [Hin|Hin].
  - by apply (proj1 (Forall_forall _ _) Hd d Hin).
  - apply list_elem_of_singleton in Hin as ->. done.
Qed.

(** A label that resolves to a service descriptor is not ["dwata_meta"],
    and the descriptor names a section of the settings that has the label. *)
Lemma requested_service (all_sources : list descriptor) (l : string) (d : descriptor) :
  registry = Return all_sources →
  requested all_sources l = Return d →
  has_kind "service" d →
  l ≠ "dwata_meta" ∧
  ∃ settings sname sec,
    get_settings = Return settings ∧ settings !! upper sname = Some sec ∧
    l ∈ keys sec ∧ d = [PStr l; PStr "service"; PStr sname].
Proof.
  intros Hreg Hreq Hkind.
  destruct (get_all_sources_inv _ _ _ _ Hreg) as (settings & items & dbs & Hs & _ & Hd & ->).
  split.
  - intros ->.
    destruct (requested_database_first settings dbs "dwata_meta" dwata_meta_descriptor Hreg)
      as (d' & Hreq' & Hin & _); [apply elem_of_app; right; by apply list_elem_of_singleton | done |].
    rewrite Hreq in Hreq'. injection Hreq' as <-.
    pose proof (databases_kind _ _ _ Hd Hin) as Hk. unfold has_kind in *. congruence.
  - destruct (requested_Return _ _ _ Hreg Hreq) as [Hin Hl].
    apply elem_of_app in Hin as [Hin|Hin].
    + pose proof (databases_kind _ _ _ Hd Hin) as Hk. unfold has_kind in *. congruence.
    + apply service_descriptors_elem in Hin as (sname & sec & l' & _ & Hsec & Hl' & ->).
      unfold has_label in Hl. simpl in Hl. injection Hl as ->.
      by exists settings, sname, sec.
Qed.

Lemma get_source_settings_service (all_sources : list descriptor) (l : string)
      (d : descriptor) :
  registry = Return all_sources →
  requested all_sources l = Return d →
  has_kind "service" d →
  ∃ value, get_source_settings all_services urlparse_scheme get_settings l
           = Return (Some value).
Proof.
  intros Hreg Hreq Hkind.
  destruct (requested_service _ _ _ Hreg Hreq Hkind)
    as (Hne & settings & sname & sec & Hs & Hsec & Hl & ->).
  destruct (dict_get_keys sec l Hl) as [value Hv]. exists value.
  unfold get_source_settings. rewrite bool_decide_eq_false_2 by done.
  rewrite Hreg, Hs. simpl. rewrite Hreq. simpl.
  unfold getattr. rewrite Hsec. simpl. by rewrite Hv.
Qed.

Lemma get_source_settings_database (settings : Settings) (items : section)
      (all_sources : list descriptor) (l : string) (value : sdict) :
  get_settings = Return settings →
  settings !! "DATABASES" = Some items →
  registry = Return all_sources →
  l ≠ "dwata_meta" →
  dict_get items l = Return value →
  get_source_settings all_services urlparse_scheme get_settings l = Return (Some value).
Proof.
  intros Hs Hi Hreg Hne Hv.
  destruct (get_all_sources_inv _ _ _ _ Hreg) as (settings' & items' & dbs & Hs' & Hi' & Hd & ->).
  assert (settings' = settings) as -> by congruence.
  assert (items' = items) as -> by congruence.
  destruct (proj2 (database_descriptors_label _ _ _ l Hd)) as (d0 & Hin0 & Hl0);
    [by eapply dict_get_Return_keys |].
  destruct (requested_database_first settings dbs l d0 Hreg) as (d & Hreq & Hin & Hl);
    [apply elem_of_app; by left | done |].
  assert (∃ s a, d = [PStr l; PStr "database"; PStr s; PDict a]) as (s & a & ->).
  { apply elem_of_app in Hin as [Hin|Hin].
    - apply database_descriptors_shape in Hd.
      destruct (proj1 (list_elem_of_lookup _ _) Hin) as [i Hi0].
      destruct (Forall2_lookup_r _ _ _ _ _ Hd Hi0) as ([k v] & _ & s & ->).
      unfold has_label in Hl. simpl in Hl. injection Hl as ->. eauto.
    - apply list_elem_of_singleton in Hin as ->.
      unfold has_label in Hl. simpl in Hl. congruence. }
  unfold get_source_settings. rewrite bool_decide_eq_false_2 by done.
  rewrite Hreg, Hs. simpl. rewrite Hreq. simpl.
  unfold getattr. rewrite Hi. simpl. by rewrite Hv.
Qed.

(** Every entry of a database section that builds has a URL. *)
Lemma database_descriptors_url (items : section) (dbs : list descriptor)
      (l : string) (value : sdict) :
  database_descriptors urlparse_scheme items = Return dbs →
  dict_get items l = Return value →
  ∃ url, dict_get value "db_url" = Return url.
Proof.
  revert dbs. induction items as [|[k v] rest IH]; simpl; intros dbs Hd Hv; [done |].
  apply rbind_Return in Hd as (url & Hurl & Hd).
  apply rbind_Return in Hd as (scheme & _ & Hd).
  apply rbind_Return in Hd as (ds & Hds & _).
  case_bool_decide; [injection Hv as <-; eauto | by eapply IH].
Qed.

(** Every label whose first match is a database descriptor has settings
    with a URL. *)
Lemma database_at_intro (all_sources : list descriptor) (l : string) (d : descriptor) :
  registry = Return all_sources →
  requested all_sources l = Return d →
  has_kind "database" d →
  ∃ url, database_at all_services urlparse_scheme get_settings l url.
Proof.
  intros Hreg Hreq Hkind.
  destruct (decide (l = "dwata_meta")) as [->|Hne].
  { exists "sqlite:///dwata_meta.db", all_sources, d, (Some dwata_meta_settings).
    by split_and!. }
  destruct (get_all_sources_inv _ _ _ _ Hreg) as (settings & items & dbs & Hs & Hi & Hd & Heq).
  destruct (requested_Return _ _ _ Hreg Hreq) as [Hin Hl].
  assert (l ∈ keys items) as Hkey.
  { apply (database_descriptors_label urlparse_scheme items dbs l Hd).
    subst all_sources. apply elem_of_app in Hin as [Hin|Hin].
    - apply elem_of_app in Hin as [Hin|Hin]; [eauto |].
      apply list_elem_of_singleton in Hin as ->.
      unfold has_label in Hl. simpl in Hl. congruence.
    - pose proof (service_descriptors_kind settings all_services) as Hsv.
      destruct (proj1 (Forall_forall _ _) Hsv d Hin) as [_ Hk].
      unfold has_kind in *. congruence. }
  destruct (dict_get_keys items l Hkey) as [value Hv].
  destruct (database_descriptors_url items dbs l value Hd Hv) as [url Hurl].
  exists url, all_sources, d, (Some value). split_and!; try done.
  by eapply get_source_settings_database.
Qed.

End Resolution.

(** ** Properties of the registry *)

(** C8.  Whatever the settings provider gives, and even when it raises,
    [get_source_settings("dwata_meta")] returns the fixed descriptor of the
    system database, [{"db_url": "sqlite:///dwata_meta.db"}]: two states
    of the provider (and of the service table and URL parser) cannot be told
    apart through it. *)
Theorem get_source_settings_dwata_meta_fixed
        (services1 services2 : list string)
        (urlparse1 urlparse2 : string → result string)
        (provider1 provider2 : result Settings) :
  get_source_settings services1 urlparse1 provider1 "dwata_meta"
    = Return (Some [("db_url", "sqlite:///dwata_meta.db")]) ∧
  get_source_settings services1 urlparse1 provider1 "dwata_meta"
    = get_source_settings services2 urlparse2 provider2 "dwata_meta".
Proof. split; reflexivity. Qed.

(** C2, as stated, fails: with a database section that itself uses the
    label ["dwata_meta"] the registry lists that label twice (and a service
    section with that label adds a third, of kind service). *)
Lemma dwata_meta_listed_twice :
  get_all_sources [] url_scheme (Return cfg_clash)
    = Return [[PStr "dwata_meta"; PStr "database"; PStr "postgres"; PDict []];
              dwata_meta_descriptor] ∧
  get_all_sources ["github"] url_scheme (Return cfg_clash)
    = Return [[PStr "dwata_meta"; PStr "database"; PStr "postgres"; PDict []];
              dwata_meta_descriptor;
              [PStr "dwata_meta"; PStr "service"; PStr "github"]] ∧
  (∀ all_sources,
     get_all_sources [] url_scheme (Return cfg_clash) = Return all_sources →
     length (filter (has_label "dwata_meta") all_sources) = 2%nat).
Proof.
  split_and!; [by vm_compute | by vm_compute |].
  intros all_sources H. vm_compute in H. injection H as <-. by vm_compute.
Qed.

(** C2, amended.  Whenever the registry builds, it contains the descriptor
    [["dwata_meta", "database", "sqlite", {"is_system_db": True}]], which is
    of kind database and carries the attribute; and when no key of the
    database section and no key of a configured service section is
    ["dwata_meta"], that descriptor is the only one with this label. *)
Theorem dwata_meta_listed
        (all_services : list string) (urlparse_scheme : string → result string)
        (get_settings : result Settings)
        (settings : Settings) (items : section) (all_sources : list descriptor)
        (Hsettings : get_settings = Return settings)
        (Hitems : settings !! "DATABASES" = Some items)
        (Hregistry : get_all_sources all_services urlparse_scheme get_settings
                     = Return all_sources) :
  dwata_meta_descriptor ∈ all_sources ∧
  has_label "dwata_meta" dwata_meta_descriptor ∧
  has_kind "database" dwata_meta_descriptor ∧
  dwata_meta_descriptor !! 3%nat = Some (PDict [("is_system_db", true)]) ∧
  ("dwata_meta" ∉ keys items →
   (∀ sname sec, sname ∈ all_services → settings !! upper sname = Some sec →
                 "dwata_meta" ∉ keys sec) →
   filter (has_label "dwata_meta") all_sources = [dwata_meta_descriptor]).
Proof.
  destruct (get_all_sources_inv _ _ _ _ Hregistry)
    as (settings' & items' & dbs & Hs' & Hi' & Hd & ->).
  assert (settings' = settings) as -> by congruence.
  assert (items' = items) as -> by congruence.
  split_and!; try done.
  - apply elem_of_app. left. apply elem_of_app. right. by apply list_elem_of_singleton.
  - intros Hdb Hsvc. rewrite !filter_app.
    rewrite (filter_none (has_label "dwata_meta") dbs).
    + rewrite (filter_none (has_label "dwata_meta") (service_descriptors _ _)); [done |].
      intros d Hin Hl.
      apply service_descriptors_elem in Hin as (sname & sec & l & Hs & Hsec & Hl' & ->).
      unfold has_label in Hl. simpl in Hl. injection Hl as ->.
      by apply (Hsvc sname sec).
    + intros d Hin Hl. apply Hdb.
      apply (database_descriptors_label urlparse_scheme items dbs); eauto.
Qed.

(** With the sales settings the label is listed once. *)
Lemma dwata_meta_listed_witness :
  filter (has_label "dwata_meta")
         [[PStr "sales"; PStr "database"; PStr "postgres"; PDict []];
          dwata_meta_descriptor]
    = [dwata_meta_descriptor].
Proof.
  refine (proj2 (proj2 (proj2 (proj2
    (dwata_meta_listed ["github"] url_scheme (Return cfg_sales) cfg_sales
       [("sales", [("db_url", "postgres://host/salesdb")])]
       [[PStr "sales"; PStr "database"; PStr "postgres"; PDict []];
        dwata_meta_descriptor]
       eq_refl _ _)))) _ _).
  - by vm_compute.
  - by vm_compute.
  - unfold keys. simpl. intros H. apply list_elem_of_singleton in H. discriminate.
  - intros sname sec Hs Hsec. apply list_elem_of_singleton in Hs as ->.
    vm_compute in Hsec. discriminate.
Defined.

(** C9.  The code at a settings object with a section for the service
    ["github"]: the database entry and the system entry are lists of four
    elements, the fourth being the attributes, while each service entry is
    the three-element list [[label, "service", sname]], so that reading its
    fourth component raises [IndexError]. *)
Theorem service_descriptor_has_no_attributes :
  get_all_sources ["github"] url_scheme (Return cfg_crm)
    = Return [[PStr "crm"; PStr "database"; PStr "mysql"; PDict []];
              [PStr "dwata_meta"; PStr "database"; PStr "sqlite";
               PDict [("is_system_db", true)]];
              [PStr "gh"; PStr "service"; PStr "github"];
              [PStr "crm"; PStr "service"; PStr "github"]] ∧
  index [PStr "crm"; PStr "database"; PStr "mysql"; PDict []] 3 = Return (PDict []) ∧
  length [PStr "gh"; PStr "service"; PStr "github"] = 3%nat ∧
  index [PStr "gh"; PStr "service"; PStr "github"] 3 = Raise IndexError.
Proof. split_and!; by vm_compute. Qed.

(** C10, as stated, fails for the label ["dwata_meta"]: when it is a key of
    the database section and of a service section, the call returns the
    fixed system settings and not the entry of the database section. *)
Lemma dwata_meta_shadows_database_entry :
  dict_get [("dwata_meta", [("db_url", "postgres://host/meta")])] "dwata_meta"
    = Return [("db_url", "postgres://host/meta")] ∧
  cfg_clash !! "DATABASES" = Some [("dwata_meta", [("db_url", "postgres://host/meta")])] ∧
  cfg_clash !! upper "github" = Some [("dwata_meta", [("token", "t0")])] ∧
  get_source_settings ["github"] url_scheme (Return cfg_clash) "dwata_meta"
    = Return (Some [("db_url", "sqlite:///dwata_meta.db")]) ∧
  get_source_settings ["github"] url_scheme (Return cfg_clash) "dwata_meta"
    ≠ Return (Some [("db_url", "postgres://host/meta")]).
Proof. split_and!; by vm_compute. Qed.

(** C10, amended.  When the registry builds, it lists the database
    descriptors (the system database last) before the service descriptors,
    and for every label other than ["dwata_meta"] that is a key of the
    database section, [get_source_settings] returns the entry of the
    database section, whether or not a service section has the same label. *)
Theorem database_entry_wins
        (all_services : list string) (urlparse_scheme : string → result string)
        (get_settings : result Settings)
        (settings : Settings) (items : section) (all_sources : list descriptor)
        (label : string) (value : sdict)
        (Hsettings : get_settings = Return settings)
        (Hitems : settings !! "DATABASES" = Some items)
        (Hregistry : get_all_sources all_services urlparse_scheme get_settings
                     = Return all_sources)
        (Hlabel : label ≠ "dwata_meta")
        (Hentry : dict_get items label = Return value) :
  (∃ databases,
     all_sources = databases ++ service_descriptors settings all_services ∧
     Forall (has_kind "database") databases ∧
     Forall (has_kind "service") (service_descriptors settings all_services)) ∧
  (∃ s, requested all_sources label
        = Return [PStr label; PStr "database"; PStr s; PDict []]) ∧
  get_source_settings all_services urlparse_scheme get_settings label
    = Return (Some value).
Proof.
  split_and!.
  - destruct (get_all_sources_inv _ _ _ _ Hregistry)
      as (settings' & items' & dbs & Hs' & Hi' & Hd & ->).
    assert (settings' = settings) as -> by congruence.
    exists (dbs ++ [dwata_meta_descriptor]). split_and!; [done | |].
    + apply Forall_forall. intros d Hin. by eapply databases_kind.
    + eapply Forall_impl; [apply service_descriptors_kind |]. by intros d [_ Hk].
  - destruct (get_all_sources_inv _ _ _ _ Hregistry)
      as (settings' & items' & dbs & Hs' & Hi' & Hd & ->).
    assert (settings' = settings) as -> by congruence.
    assert (items' = items) as -> by congruence.
    destruct (proj2 (database_descriptors_label _ _ _ label Hd)) as (d0 & Hin0 & Hl0);
      [by eapply dict_get_Return_keys |].
    destruct (requested_database_first _ _ _ settings dbs label d0 Hregistry)
      as (d & Hreq & Hin & Hl); [apply elem_of_app; by left | done |].
    rewrite Hreq. apply elem_of_app in Hin as [Hin|Hin].
    + apply database_descriptors_shape in Hd.
      destruct (proj1 (list_elem_of_lookup _ _) Hin) as [i Hi0].
      destruct (Forall2_lookup_r _ _ _ _ _ Hd Hi0) as ([k v] & _ & s & ->).
      unfold has_label in Hl. simpl in Hl. injection Hl as ->. by exists s.
    + apply list_elem_of_singleton in Hin as ->.
      unfold has_label in Hl. simpl in Hl. congruence.
  - by eapply get_source_settings_database.
Qed.

(** The label ["crm"] names a database and a github entry; the database
    entry is returned. *)
Lemma database_entry_wins_witness :
  "crm" ∈ keys [("gh", [("token", "t1")]); ("crm", [("token", "t2")])] ∧
  get_source_settings ["github"] url_scheme (Return cfg_crm) "crm"
    = Return (Some [("db_url", "mysql://host/crm")]).
Proof.
  split.
  - unfold keys. simpl. apply elem_of_cons. right. apply elem_of_cons. by left.
  - refine (proj2 (proj2
      (database_entry_wins ["github"] url_scheme (Return cfg_crm) cfg_crm
         [("crm", [("db_url", "mysql://host/crm")])]
         [[PStr "crm"; PStr "database"; PStr "mysql"; PDict []];
          dwata_meta_descriptor;
          [PStr "gh"; PStr "service"; PStr "github"];
          [PStr "crm"; PStr "service"; PStr "github"]]
         "crm" [("db_url", "mysql://host/crm")]
         eq_refl _ _ _ _))).
    + by vm_compute.
    + by vm_compute.
    + discriminate.
    + by vm_compute.
Defined.

(** ** Running a computation *)

Lemma bind_lift_Return {A B : Type} (a : A) (k : A → M B) (w : World) :
  bind (lift (Return a)) k w = k a w.
Proof. reflexivity. Qed.

Lemma bind_lift_Raise {A B : Type} (e : exn) (k : A → M B) (w : World) :
  bind (lift (Raise e)) k w = (Raise e, w).
Proof. reflexivity. Qed.

(** Line 20 raises before the rest of the loop body is looked at. *)
Lemma bind_fetch_one {B : Type} (label : string) (k : option DataSourceRecord → M B)
      (w : World) :
  bind (fetch_one label) k w = (Raise (NameError "dwata_meta_db"), w).
Proof. reflexivity. Qed.

(** ** One pass of the reflection *)

Section Reflection.

Variable all_services : list string.
Variable urlparse_scheme : string → result string.
Variable get_settings : result Settings.
Variable connect_database : string → result Connection.
Variable reflect : string → result (list string).
Variable utcnow : nat → Z.

Local Abbreviation refresh_loop' :=
  (refresh_loop all_services urlparse_scheme get_settings connect_database reflect utcnow).
Local Abbreviation refresh' :=
  (refresh all_services urlparse_scheme get_settings connect_database reflect utcnow).

Lemma index_kind (d : descriptor) (k : string) :
  has_kind k d → index d 1 = Return (PStr k).
Proof. unfold has_kind, index. by intros ->. Qed.

(** A label that resolves to a database ends the run at line 20, with the
    [NameError] of the unbound [dwata_meta_db]. *)
Lemma refresh_loop_database (all_sources : list descriptor) (label : string)
      (rest : list string) (d : descriptor) (source_settings : option sdict)
      (w : World) :
  requested all_sources label = Return d →
  has_kind "database" d →
  get_source_settings all_services urlparse_scheme get_settings label
    = Return source_settings →
  refresh_loop' all_sources (label :: rest) w = (Raise (NameError "dwata_meta_db"), w).
Proof.
  intros Hreq Hkind Hset.
  cbn [refresh_loop].
  rewrite Hreq, bind_lift_Return, Hset, bind_lift_Return.
  rewrite (index_kind _ _ Hkind), bind_lift_Return.
  rewrite bool_decide_eq_true_2 by done. cbn [negb].
  apply bind_fetch_one.
Qed.

(** A label that resolves to a service ends the run with [False]. *)
Lemma refresh_loop_service (all_sources : list descriptor) (label : string)
      (rest : list string) (d : descriptor) (w : World) :
  get_all_sources all_services urlparse_scheme get_settings = Return all_sources →
  requested all_sources label = Return d →
  has_kind "service" d →
  refresh_loop' all_sources (label :: rest) w = (Return RFalse, w).
Proof.
  intros Hreg Hreq Hkind.
  destruct (get_source_settings_service _ _ _ _ _ _ Hreg Hreq Hkind) as [value Hset].
  cbn [refresh_loop].
  rewrite Hreq, bind_lift_Return, Hset, bind_lift_Return.
  rewrite (index_kind _ _ Hkind), bind_lift_Return.
  by rewrite bool_decide_eq_false_2.
Qed.

(** A label that no descriptor carries ends the run with [IndexError]. *)
Lemma refresh_loop_absent (all_sources : list descriptor) (label : string)
      (rest : list string) (w : World) :
  get_all_sources all_services urlparse_scheme get_settings = Return all_sources →
  (∀ d, d ∈ all_sources → ¬ has_label label d) →
  refresh_loop' all_sources (label :: rest) w = (Raise IndexError, w).
Proof.
  intros Hreg Hno.
  cbn [refresh_loop].
  by rewrite (requested_absent _ _ _ _ _ Hreg Hno), bind_lift_Raise.
Qed.

Lemma refresh_unfold (all_sources : list descriptor) (labels : list string) (w : World) :
  get_all_sources all_services urlparse_scheme get_settings = Return all_sources →
  refresh' labels w = refresh_loop' all_sources labels w.
Proof. intros Hreg. unfold refresh, bind, lift. by rewrite Hreg. Qed.

(** The first label of a batch ends the run, whatever follows it: with an
    exception or with [False], and with the world as it was. *)
Lemma refresh_loop_first (all_sources : list descriptor) (label : string) (w : World) :
  ∃ r, r ≠ Return RStatusSuccess ∧
       ∀ rest, refresh_loop' all_sources (label :: rest) w = (r, w).
Proof.
  destruct (requested all_sources label) as [d|e] eqn:Hreq.
  2:{ exists (Raise e). split; [done |]. intros rest. cbn [refresh_loop].
      by rewrite Hreq, bind_lift_Raise. }
  destruct (get_source_settings all_services urlparse_scheme get_settings label)
    as [ss|e] eqn:Hset.
  2:{ exists (Raise e). split; [done |]. intros rest. cbn [refresh_loop].
      by rewrite Hreq, bind_lift_Return, Hset, bind_lift_Raise. }
  destruct (index d 1) as [kind|e] eqn:Hkind.
  2:{ exists (Raise e). split; [done |]. intros rest. cbn [refresh_loop].
      by rewrite Hreq, bind_lift_Return, Hset, bind_lift_Return, Hkind, bind_lift_Raise. }
  destruct (decide (kind = PStr "database")) as [->|Hnot].
  - exists (Raise (NameError "dwata_meta_db")). split; [done |]. intros rest.
    apply (refresh_loop_database _ _ _ d ss); try done.
    unfold has_kind. unfold index in Hkind. destruct (d !! 1%nat); congruence.
  - exists (Return RFalse). split; [done |]. intros rest. cbn [refresh_loop].
    rewrite Hreq, bind_lift_Return, Hset, bind_lift_Return, Hkind, bind_lift_Return.
    by rewrite bool_decide_eq_false_2.
Qed.

Lemma refresh_first (label : string) (w : World) :
  ∃ r, r ≠ Return RStatusSuccess ∧ ∀ rest, refresh' (label :: rest) w = (r, w).
Proof.
  destruct (get_all_sources all_services urlparse_scheme get_settings)
    as [all_sources|e] eqn:Hreg.
  - destruct (refresh_loop_first all_sources label w) as (r & Hr & Hrun).
    exists r. split; [done |]. intros rest. by rewrite (refresh_unfold _ _ _ Hreg).
  - exists (Raise e). split; [done |]. intros rest.
    unfold refresh. by rewrite Hreg, bind_lift_Raise.
Qed.

Lemma refresh_world (labels : list string) (w : World) :
  (refresh' labels w).2 = w.
Proof.
  destruct labels as [|label rest].
  - unfold refresh.
    destruct (get_all_sources all_services urlparse_scheme get_settings); by simpl.
  - destruct (refresh_first label w) as (r & _ & Hrun). by rewrite Hrun.
Qed.

(** A label that resolves to a database: the settings resolve, and the run
    ends at line 20. *)
Lemma refresh_database_label (all_sources : list descriptor) (label : string)
      (rest : list string) (d : descriptor) (w : World) :
  get_all_sources all_services urlparse_scheme get_settings = Return all_sources →
  requested all_sources label = Return d →
  has_kind "database" d →
  refresh' (label :: rest) w = (Raise (NameError "dwata_meta_db"), w).
Proof.
  intros Hreg Hreq Hkind.
  destruct (database_at_intro _ _ _ _ _ _ Hreg Hreq Hkind)
    as (url & all' & d' & ss & _ & _ & _ & Hset & _).
  rewrite (refresh_unfold _ _ _ Hreg).
  by apply (refresh_loop_database _ _ _ d ss).
Qed.

End Reflection.

(** ** Properties of the reflection *)

Section RefreshProperties.

Variable all_services : list string.
Variable urlparse_scheme : string → result string.
Variable get_settings : result Settings.
Variable connect_database : string → result Connection.
Variable reflect : string → result (list string).
Variable utcnow : nat → Z.

Local Abbreviation refresh' :=
  (refresh all_services urlparse_scheme get_settings connect_database reflect utcnow).

(** C3, amended.  When the registry builds and no descriptor carries the
    label, [refresh] of a batch that starts with it raises the
    [IndexError] of the empty first-match lookup, which is not an
    [ExceptionBase], and leaves the store as it was. *)
Theorem refresh_unknown_label (label : string) (rest : list string)
        (all_sources : list descriptor) (w : World)
        (Hregistry : get_all_sources all_services urlparse_scheme get_settings
                     = Return all_sources)
        (Habsent : ∀ d, d ∈ all_sources → ¬ has_label label d) :
  refresh' (label :: rest) w = (Raise IndexError, w) ∧
  structured IndexError = false.
Proof.
  split; [|done].
  rewrite (refresh_unfold _ _ _ _ _ _ _ _ _ Hregistry).
  by apply refresh_loop_absent.
Qed.

(** C4, amended.  Let the registry build, let the label resolve to a
    database and let the metadata store hold no data source row for it.
    Then [refresh] of a batch that starts with the label fails: it raises
    an exception that is not an [ExceptionBase], so carries no error code;
    it does not report success and the store is as it was, no row
    inserted. *)
Theorem refresh_without_data_source (label : string) (rest : list string)
        (all_sources : list descriptor) (d : descriptor) (w : World)
        (Hregistry : get_all_sources all_services urlparse_scheme get_settings
                     = Return all_sources)
        (Hresolves : requested all_sources label = Return d)
        (Hdatabase : has_kind "database" d)
        (Hrow : data_source_of label w = None) :
  ∃ e,
    refresh' (label :: rest) w = (Raise e, w) ∧
    structured e = false ∧
    json_response e = None.
Proof.
  exists (NameError "dwata_meta_db"). split; [|done].
  by apply (refresh_database_label _ _ _ _ _ _ all_sources label rest d).
Qed.


(** C5.  When the registry builds and the first label of the batch
    [[l; m]] resolves to a descriptor of kind service, [refresh] returns
    [False] at once: nothing is done for [m], and the store is as it was,
    so no row is inserted for [m] or for [l]. *)
Theorem refresh_service_label_aborts (l m : string)
        (all_sources : list descriptor) (d : descriptor) (w : World)
        (Hregistry : get_all_sources all_services urlparse_scheme get_settings
                     = Return all_sources)
        (Hresolves : requested all_sources l = Return d)
        (Hservice : has_kind "service" d) :
  refresh' [l; m] w = (Return RFalse, w).
Proof.
  rewrite (refresh_unfold _ _ _ _ _ _ _ _ _ Hregistry).
  by eapply refresh_loop_service.
Qed.

End RefreshProperties.

(** ** The properties at concrete inputs *)

(** C1.  The code at the sales database with the tables [a] and [b] and
    the data source row 7: line 20 reads the global name [dwata_meta_db],
    which [workers.py] never binds, so the run ends with [NameError] and
    the store has no new row. *)
Theorem refresh_two_tables_raises_NameError :
  data_source_of "sales" world_sales = Some (mkDataSource 7 "sales") ∧
  reflect_ab "postgres://host/salesdb" = Return ["a"; "b"] ∧
  refresh ["github"] url_scheme (Return cfg_sales) always_connect reflect_ab ticking
          ["sales"] world_sales
    = (Raise (NameError "dwata_meta_db"), world_sales) ∧
  tables_rows world_sales = [].
Proof. split_and!; by vm_compute. Qed.


(** C3, as stated, fails: for a label the registry does not list, the run
    ends with the bare [IndexError] of line 14, which carries no error code
    and has no JSON response; no [ExceptionBase] is raised. *)
Lemma unknown_label_raises_IndexError :
  get_all_sources ["github"] url_scheme (Return cfg_sales)
    = Return [[PStr "sales"; PStr "database"; PStr "postgres"; PDict []];
              dwata_meta_descriptor] ∧
  refresh ["github"] url_scheme (Return cfg_sales) always_connect reflect_ab ticking
          ["nope"] world_sales
    = (Raise IndexError, world_sales) ∧
  structured IndexError = false ∧
  json_response IndexError = None.
Proof. split_and!; by vm_compute. Qed.

(** The label ["nope"] against the sales settings. *)
Lemma refresh_unknown_label_witness :
  refresh ["github"] url_scheme (Return cfg_sales) always_connect reflect_ab ticking
          ["nope"] world_sales
    = (Raise IndexError, world_sales) ∧
  structured IndexError = false.
Proof.
  refine (refresh_unknown_label ["github"] url_scheme (Return cfg_sales)
            always_connect reflect_ab ticking "nope" []
            [[PStr "sales"; PStr "database"; PStr "postgres"; PDict []];
             dwata_meta_descriptor]
            world_sales _ _).
  - by vm_compute.
  - intros d Hd Hl.
    apply elem_of_cons in Hd as [->|Hd]; [by vm_compute in Hl |].
    apply list_elem_of_singleton in Hd as ->. by vm_compute in Hl.
Defined.

(** C4, as stated, fails: with no data source row for ["sales"] the run
    fails, but with a [NameError], which carries no error code and has no
    JSON response; no [ExceptionBase] is raised. *)
Lemma missing_data_source_raises_NameError :
  data_source_of "sales" world_empty = None ∧
  refresh ["github"] url_scheme (Return cfg_sales) always_connect reflect_ab ticking
          ["sales"] world_empty
    = (Raise (NameError "dwata_meta_db"), world_empty) ∧
  structured (NameError "dwata_meta_db") = false ∧
  json_response (NameError "dwata_meta_db") = None.
Proof. split_and!; by vm_compute. Qed.

(** The sales database and a store without data source rows. *)
Lemma refresh_without_data_source_witness :
  ∃ e,
    refresh ["github"] url_scheme (Return cfg_sales) always_connect reflect_ab ticking
            ["sales"] world_empty
    = (Raise e, world_empty) ∧
    structured e = false ∧
    json_response e = None.
Proof.
  refine (refresh_without_data_source ["github"] url_scheme (Return cfg_sales)
            always_connect reflect_ab ticking "sales" []
            [[PStr "sales"; PStr "database"; PStr "postgres"; PDict []];
             dwata_meta_descriptor]
            [PStr "sales"; PStr "database"; PStr "postgres"; PDict []]
            world_empty _ _ _ _);
    by vm_compute.
Defined.

(** The batch [["gh"; "crm"]]: ["gh"] is a github entry, ["crm"] a database
    with a data source row. *)
Lemma refresh_service_label_aborts_witness :
  requested [[PStr "crm"; PStr "database"; PStr "mysql"; PDict []];
             dwata_meta_descriptor;
             [PStr "gh"; PStr "service"; PStr "github"];
             [PStr "crm"; PStr "service"; PStr "github"]] "gh"
    = Return [PStr "gh"; PStr "service"; PStr "github"] ∧
  refresh ["github"] url_scheme (Return cfg_crm) always_connect reflect_ab ticking
          ["gh"; "crm"] world_crm
    = (Return RFalse, world_crm).
Proof.
  split; [by vm_compute |].
  refine (refresh_service_label_aborts ["github"] url_scheme (Return cfg_crm)
            always_connect reflect_ab ticking "gh" "crm"
            [[PStr "crm"; PStr "database"; PStr "mysql"; PDict []];
             dwata_meta_descriptor;
             [PStr "gh"; PStr "service"; PStr "github"];
             [PStr "crm"; PStr "service"; PStr "github"]]
            [PStr "gh"; PStr "service"; PStr "github"] world_crm _ _ _);
    by vm_compute.
Defined.

(** ** More on the registry *)

Section RegistryProperties.

Variable all_services : list string.
Variable urlparse_scheme : string → result string.
Variable get_settings : result Settings.

Local Abbreviation registry := (get_all_sources all_services urlparse_scheme get_settings).
Local Abbreviation resolve :=
  (get_source_settings all_services urlparse_scheme get_settings).

Lemma database_descriptors_first (items : section) (dbs : list descriptor) :
  database_descriptors urlparse_scheme items = Return dbs →
  (fun d : descriptor => d !! 0%nat) <$> dbs = (fun l => Some (PStr l)) <$> keys items.
Proof.
  intros H. apply database_descriptors_shape in H. unfold keys.
  induction H as [|[k v] d items dbs [s ->] _ IH]; [done |].
  rewrite !fmap_cons, IH. done.
Qed.

Lemma service_descriptors_first (settings : Settings) (names : list string) :
  (fun d : descriptor => d !! 0%nat) <$> service_descriptors settings names
  = (fun l => Some (PStr l)) <$> concat (section_keys settings <$> names).
Proof.
  induction names as [|sname names IH]; [done |].
  cbn [service_descriptors fmap list_fmap concat]. rewrite !fmap_app, IH. f_equal.
  unfold section_keys. destruct (settings !! upper sname) as [sec|]; [|done].
  unfold section_descriptors, keys. rewrite <- !list_fmap_compose.
  apply list_fmap_ext. by intros i [l v] _.
Qed.

(** A database section with an entry that has no URL does not build. *)
Lemma database_descriptors_malformed (items : section) (l : string) (value : sdict) :
  (l, value) ∈ items → "db_url" ∉ keys value →
  ∃ e, database_descriptors urlparse_scheme items = Raise e.
Proof.
  intros Hin Hno. induction items as [|[k v] rest IH]; [by apply elem_of_nil in Hin |].
  cbn [database_descriptors].
  destruct (dict_get v "db_url") as [url|e] eqn:Hv; [|by exists e].
  cbn [rbind]. destruct (urlparse_scheme url) as [scheme|e]; [|by exists e].
  cbn [rbind]. apply elem_of_cons in Hin as [Heq|Hin].
  - injection Heq as <- <-. exfalso. apply Hno. by eapply dict_get_Return_keys.
  - destruct (IH Hin) as [e He]. rewrite He. by exists e.
Qed.

(** The labels of the registry, in order: the keys of the database section,
    then ["dwata_meta"], then, service by service in the order of
    [all_services], the keys of each section the settings have; a service
    without a section adds nothing.  In particular the registry has one
    entry more than there are configured sources, and is never empty. *)
Theorem registry_labels_in_order
        (settings : Settings) (items : section) (all_sources : list descriptor)
        (Hsettings : get_settings = Return settings)
        (Hitems : settings !! "DATABASES" = Some items)
        (Hregistry : registry = Return all_sources) :
  (fun d : descriptor => d !! 0%nat) <$> all_sources
  = (fun l => Some (PStr l))
      <$> (keys items ++ "dwata_meta" :: concat (section_keys settings <$> all_services)) ∧
  length all_sources
  = S (length items + length (concat (section_keys settings <$> all_services))).
Proof.
  destruct (get_all_sources_inv _ _ _ _ Hregistry)
    as (settings' & items' & dbs & Hs' & Hi' & Hd & ->).
  assert (settings' = settings) as -> by congruence.
  assert (items' = items) as -> by congruence.
  assert ((fun d : descriptor => d !! 0%nat)
            <$> (dbs ++ [dwata_meta_descriptor]) ++ service_descriptors settings all_services
          = (fun l => Some (PStr l))
              <$> (keys items
                     ++ "dwata_meta" :: concat (section_keys settings <$> all_services)))
    as Hfirst.
  { rewrite !fmap_app, (database_descriptors_first _ _ Hd), service_descriptors_first.
    rewrite <- app_assoc. done. }
  split; [done |].
  apply (f_equal length) in Hfirst. rewrite !length_fmap in Hfirst.
  rewrite Hfirst, length_app. unfold keys. rewrite length_fmap. simpl. lia.
Qed.

(** A label that no descriptor of the registry carries does not resolve:
    [get_source_settings] raises the [IndexError] of line 33. *)
Theorem get_source_settings_unknown_label
        (all_sources : list descriptor) (label : string)
        (Hregistry : registry = Return all_sources)
        (Habsent : ∀ d, d ∈ all_sources → ¬ has_label label d) :
  resolve label = Raise IndexError.
Proof.
  destruct (get_all_sources_inv _ _ _ _ Hregistry)
    as (settings & items & dbs & Hs & Hi & Hd & Heq).
  assert (label ≠ "dwata_meta") as Hne.
  { intros ->. apply (Habsent dwata_meta_descriptor); [|done]. subst all_sources.
    apply elem_of_app. left. apply elem_of_app. right. by apply list_elem_of_singleton. }
  unfold get_source_settings. rewrite bool_decide_eq_false_2 by done.
  rewrite Hregistry, Hs. simpl.
  by rewrite (requested_absent _ _ _ _ _ Hregistry Habsent).
Qed.

(** Every label the registry lists resolves: [get_source_settings] returns
    settings for it, never raises and never falls through to [None]. *)
Theorem listed_label_resolves
        (all_sources : list descriptor) (d : descriptor) (label : string)
        (Hregistry : registry = Return all_sources)
        (Hlisted : d ∈ all_sources)
        (Hlabel : has_label label d) :
  ∃ value, resolve label = Return (Some value).
Proof.
  pose proof (get_all_sources_first _ _ _ _ Hregistry) as Hfirst.
  pose proof (requested_head _ label Hfirst) as Hreq.
  destruct (head (filter (has_label label) all_sources)) as [d'|] eqn:Hhead.
  - destruct (head_filter_elem _ _ _ Hhead) as [Hin' Hl'].
    assert (has_kind "database" d' ∨ has_kind "service" d') as [Hk|Hk].
    { destruct (get_all_sources_inv _ _ _ _ Hregistry)
        as (settings & items & dbs & Hs & Hi & Hd & Heq).
      subst all_sources. apply elem_of_app in Hin' as [Hin'|Hin'].
      - left. by eapply databases_kind.
      - right. pose proof (service_descriptors_kind settings all_services) as Hsv.
        by destruct (proj1 (Forall_forall _ _) Hsv d' Hin'). }
    + destruct (database_at_intro _ _ _ _ _ _ Hregistry Hreq Hk)
        as (url & all' & d'' & ss & _ & _ & _ & Hset & Hurl).
      destruct ss as [value|]; [by exists value | discriminate].
    + by eapply get_source_settings_service.
  - exfalso. by apply (head_filter_None _ _ Hhead d).
Qed.

(** What [get_source_settings] returns for a label other than
    ["dwata_meta"] is an entry of the settings under that very label: of
    the database section, or of the section of a service in
    [all_services]. *)
Theorem resolved_settings_come_from_settings
        (label : string) (r : option sdict)
        (Hlabel : label ≠ "dwata_meta")
        (Hresolved : resolve label = Return r) :
  ∃ settings value,
    get_settings = Return settings ∧ r = Some value ∧
    ((∃ items, settings !! "DATABASES" = Some items ∧ dict_get items label = Return value)
     ∨ (∃ sname sec, sname ∈ all_services ∧ settings !! upper sname = Some sec ∧
                     dict_get sec label = Return value)).
Proof.
  unfold get_source_settings in Hresolved.
  rewrite bool_decide_eq_false_2 in Hresolved by done.
  apply rbind_Return in Hresolved as (settings & Hs & H).
  apply rbind_Return in H as (all_sources & Hreg & H).
  apply rbind_Return in H as (d & Hreq & H).
  destruct (requested_Return _ _ _ _ _ _ Hreg Hreq) as [Hin Hl].
  destruct (get_all_sources_inv _ _ _ _ Hreg)
    as (settings' & items & dbs & Hs' & Hi & Hd & ->).
  assert (settings' = settings) as -> by congruence.
  exists settings. apply elem_of_app in Hin as [Hin|Hin].
  - assert (∃ s a, d = [PStr label; PStr "database"; PStr s; PDict a]) as (s & a & ->).
    { apply elem_of_app in Hin as [Hin|Hin].
      - apply database_descriptors_shape in Hd.
        destruct (proj1 (list_elem_of_lookup _ _) Hin) as [i Hi0].
        destruct (Forall2_lookup_r _ _ _ _ _ Hd Hi0) as ([k v] & _ & s & ->).
        unfold has_label in Hl. simpl in Hl. injection Hl as ->. eauto.
      - apply list_elem_of_singleton in Hin as ->.
        unfold has_label in Hl. simpl in Hl. congruence. }
    simpl in H. unfold getattr in H. rewrite Hi in H. simpl in H.
    apply rbind_Return in H as (value & Hv & H). injection H as <-.
    exists value. split_and!; try done. left. by exists items.
  - apply service_descriptors_elem in Hin as (sname & sec & l & Hsn & Hsec & Hkey & ->).
    unfold has_label in Hl. simpl in Hl. injection Hl as ->.
    simpl in H. unfold getattr in H. rewrite Hsec in H. simpl in H.
    apply rbind_Return in H as (value & Hv & H). injection H as <-.
    exists value. split_and!; try done. right. by exists sname, sec.
Qed.

End RegistryProperties.

(** ** More on the reflection *)

Section RefreshExtras.

Variable all_services : list string.
Variable urlparse_scheme : string → result string.
Variable get_settings : result Settings.
Variable connect_database : string → result Connection.
Variable reflect : string → result (list string).
Variable utcnow : nat → Z.

Local Abbreviation registry := (get_all_sources all_services urlparse_scheme get_settings).
Local Abbreviation resolve :=
  (get_source_settings all_services urlparse_scheme get_settings).
Local Abbreviation refresh_loop' :=
  (refresh_loop all_services urlparse_scheme get_settings connect_database reflect utcnow).
Local Abbreviation refresh' :=
  (refresh all_services urlparse_scheme get_settings connect_database reflect utcnow).

(** No run of [refresh] changes anything: for every batch and every world,
    and however the run ends, the world afterwards is the world before.
    Nothing is inserted, no data source is touched, no connection is
    opened and the clock is not read; lines 23 to 36 are never reached. *)
Theorem refresh_changes_nothing (labels : list string) (w : World) :
  (refresh' labels w).2 = w ∧
  tables_rows (refresh' labels w).2 = tables_rows w ∧
  data_sources_rows (refresh' labels w).2 = data_sources_rows w ∧
  clock (refresh' labels w).2 = clock w.
Proof. by rewrite refresh_world. Qed.

(** [refresh] returns [{"status": "success"}] for the empty batch only: a
    run that reports success had no label to work on. *)
Theorem refresh_success_only_on_empty_batch (labels : list string) (w w' : World)
        (Hsuccess : refresh' labels w = (Return RStatusSuccess, w')) :
  labels = [] ∧ w' = w.
Proof.
  destruct labels as [|label rest].
  - split; [done |].
    pose proof (refresh_world all_services urlparse_scheme get_settings
                  connect_database reflect utcnow [] w) as Hw.
    rewrite Hsuccess in Hw. done.
  - destruct (refresh_first all_services urlparse_scheme get_settings
                connect_database reflect utcnow label w) as (r & Hr & Hrun).
    rewrite Hrun in Hsuccess. injection Hsuccess as -> _. done.
Qed.

(** Only the first label of a batch is ever worked on: a batch ends as the
    batch of its first label alone does, with the same result and world. *)
Theorem refresh_first_label_decides (label : string) (rest : list string) (w : World) :
  refresh' (label :: rest) w = refresh' [label] w.
Proof.
  destruct (refresh_first all_services urlparse_scheme get_settings
              connect_database reflect utcnow label w) as (r & _ & Hrun).
  by rewrite !Hrun.
Qed.

(** When the registry builds and the first label of a batch resolves to a
    database (["dwata_meta"] included), [refresh] raises the [NameError] of
    the unbound [dwata_meta_db] at line 20: whatever the store holds and
    whatever the database is, nothing is looked up, connected to, reflected
    or inserted. *)
Theorem refresh_database_label_raises_NameError
        (all_sources : list descriptor) (label : string) (rest : list string)
        (d : descriptor) (w : World)
        (Hregistry : registry = Return all_sources)
        (Hresolves : requested all_sources label = Return d)
        (Hdatabase : has_kind "database" d) :
  refresh' (label :: rest) w = (Raise (NameError "dwata_meta_db"), w).
Proof. by apply (refresh_database_label _ _ _ _ _ _ all_sources label rest d). Qed.

(** One entry of the database section without a ["db_url"] disables the
    whole registry: [get_all_sources] raises, [get_source_settings] raises
    the same for every label other than ["dwata_meta"], and so does
    [refresh] for every batch, the empty one included, leaving the world as
    it was. *)
Theorem malformed_database_entry
        (settings : Settings) (items : section) (label : string) (value : sdict)
        (Hsettings : get_settings = Return settings)
        (Hitems : settings !! "DATABASES" = Some items)
        (Hentry : (label, value) ∈ items)
        (Hno_url : "db_url" ∉ keys value) :
  ∃ e,
    registry = Raise e ∧
    (∀ l, l ≠ "dwata_meta" → resolve l = Raise e) ∧
    (∀ labels w, refresh' labels w = (Raise e, w)).
Proof.
  destruct (database_descriptors_malformed urlparse_scheme items label value
              Hentry Hno_url) as [e He].
  assert (registry = Raise e) as Hreg.
  { unfold get_all_sources, getattr. rewrite Hsettings. simpl.
    rewrite Hitems. simpl. by rewrite He. }
  exists e. split_and!; [done | |].
  - intros l Hne. unfold get_source_settings.
    rewrite bool_decide_eq_false_2 by done. rewrite Hreg, Hsettings. done.
  - intros labels w. unfold refresh. by rewrite Hreg, bind_lift_Raise.
Qed.

End RefreshExtras.

(** ** The saved-query hooks *)

Section SavedQueryProperties.

Variable V : Type.
Variable of_datetime : Z → V.
Variable of_bytes : string → V.
Variable json_encode : V → result string.

Lemma encode_specification_Raise (values d : gmap string V) (e : exn) :
  encode_specification V of_bytes json_encode values = (Raise e, d) →
  d = values ∧
  ((e = KeyError "query_specification" ∧ values !! "query_specification" = None)
   ∨ (∃ q, values !! "query_specification" = Some q ∧ json_encode q = Raise e)).
Proof.
  unfold encode_specification, item.
  destruct (values !! "query_specification") as [q|] eqn:Hq.
  - destruct (json_encode q) as [text|e'] eqn:Hj; intros H; [discriminate |].
    injection H as <- <-. split; [done |]. right. by exists q.
  - intros H. injection H as <- <-. split; [done |]. by left.
Qed.

Lemma encode_specification_Return (values : gmap string V) (q : V) (text : string) :
  values !! "query_specification" = Some q →
  json_encode q = Return text →
  encode_specification V of_bytes json_encode values
  = (Return (<["query_specification" := of_bytes text]> values),
     <["query_specification" := of_bytes text]> values).
Proof. intros Hq Hj. unfold encode_specification, item. by rewrite Hq, Hj. Qed.

Lemma encode_specification_frame (values : gmap string V) (k : string) :
  k ≠ "query_specification" →
  (encode_specification V of_bytes json_encode values).2 !! k = values !! k.
Proof.
  intros Hk. unfold encode_specification, item.
  destruct (values !! "query_specification") as [q|]; [|done].
  destruct (json_encode q) as [text|e]; [|done].
  simpl. by rewrite lookup_insert_ne.
Qed.

(** When [saved_query_pre_insert] raises, it is for one of two reasons, a
    dictionary without ["query_specification"] ([KeyError]) or a
    specification the encoder refuses (the encoder's exception); in both
    the dictionary of the caller has already been given its
    ["created_at"], and is otherwise as it was. *)
Theorem pre_insert_failure (now : Z) (values d : gmap string V) (e : exn)
        (Hraises : saved_query_pre_insert V of_datetime of_bytes json_encode now values
                   = (Raise e, d)) :
  d = <["created_at" := of_datetime now]> values ∧
  ((e = KeyError "query_specification" ∧ values !! "query_specification" = None)
   ∨ (∃ q, values !! "query_specification" = Some q ∧ json_encode q = Raise e)).
Proof.
  unfold saved_query_pre_insert in Hraises.
  apply encode_specification_Raise in Hraises as [-> H]. split; [done |].
  by rewrite lookup_insert_ne in H.
Qed.

(** When the dictionary has a specification the encoder accepts,
    [saved_query_pre_insert] returns the dictionary it was given, changed
    in place: ["created_at"] is the time of the call and
    ["query_specification"] the bytes of the JSON text of the old value. *)
Theorem pre_insert_result (now : Z) (values : gmap string V) (q : V) (text : string)
        (Hspec : values !! "query_specification" = Some q)
        (Hjson : json_encode q = Return text) :
  ∃ d,
    saved_query_pre_insert V of_datetime of_bytes json_encode now values = (Return d, d) ∧
    d !! "created_at" = Some (of_datetime now) ∧
    d !! "query_specification" = Some (of_bytes text) ∧
    dom d = {["created_at"]} ∪ dom values.
Proof.
  eexists. split_and!.
  - unfold saved_query_pre_insert. apply (encode_specification_Return _ q text); [|done].
    by rewrite lookup_insert_ne.
  - rewrite lookup_insert_ne by done. by rewrite lookup_insert_eq.
  - by rewrite lookup_insert_eq.
  - rewrite !dom_insert_L. apply (elem_of_dom_2 (D := gset string)) in Hspec.
    apply set_eq. intros x. rewrite !elem_of_union, !elem_of_singleton.
    split; [intros [->|[->|Hx]]; auto | intros [->|Hx]; auto].
Qed.

(** Neither hook touches a key other than the two it assigns, however it
    ends: [saved_query_pre_insert] changes at most ["created_at"] and
    ["query_specification"], [saved_query_pre_update] at most
    ["modified_at"] and ["query_specification"].  So an update never
    changes ["created_at"]. *)
Theorem saved_query_hooks_frame (now : Z) (values : gmap string V) (k : string) :
  (k ≠ "query_specification" → k ≠ "created_at" →
   (saved_query_pre_insert V of_datetime of_bytes json_encode now values).2 !! k
   = values !! k) ∧
  (k ≠ "query_specification" → k ≠ "modified_at" →
   (saved_query_pre_update V of_datetime of_bytes json_encode now values).2 !! k
   = values !! k).
Proof.
  split; intros Hq Hk.
  - unfold saved_query_pre_insert. rewrite encode_specification_frame by done.
    by rewrite lookup_insert_ne.
  - unfold saved_query_pre_update. rewrite encode_specification_frame by done.
    by rewrite lookup_insert_ne.
Qed.

(** Updating a dictionary that went through [saved_query_pre_insert] hands
    the encoder the bytes of the first pass.  When the encoder accepts
    them, ["query_specification"] becomes the bytes of the JSON text of
    those bytes, a second encoding; when it refuses them, the update
    raises what the encoder raised and ["query_specification"] keeps the
    first encoding.  In both cases ["created_at"] stays and
    ["modified_at"] is set in the dictionary of the caller. *)
Theorem pre_update_after_pre_insert
        (now1 now2 : Z) (values : gmap string V) (q : V) (text1 : string)
        (Hspec : values !! "query_specification" = Some q)
        (Hjson1 : json_encode q = Return text1) :
  ∃ d1,
    saved_query_pre_insert V of_datetime of_bytes json_encode now1 values = (Return d1, d1) ∧
    ∃ d2,
      d2 !! "created_at" = Some (of_datetime now1) ∧
      d2 !! "modified_at" = Some (of_datetime now2) ∧
      match json_encode (of_bytes text1) with
      | Return text2 =>
          saved_query_pre_update V of_datetime of_bytes json_encode now2 d1
          = (Return d2, d2) ∧
          d2 !! "query_specification" = Some (of_bytes text2)
      | Raise e =>
          saved_query_pre_update V of_datetime of_bytes json_encode now2 d1
          = (Raise e, d2) ∧
          d2 !! "query_specification" = Some (of_bytes text1)
      end.
Proof.
  eexists. split.
  { unfold saved_query_pre_insert. apply (encode_specification_Return _ q text1); [|done].
    by rewrite lookup_insert_ne. }
  unfold saved_query_pre_update, encode_specification, item.
  rewrite lookup_insert_ne by done. rewrite lookup_insert_eq.
  destruct (json_encode (of_bytes text1)) as [text2|e]; eexists; split_and!;
    try reflexivity.
  - rewrite !lookup_insert_ne by done. by rewrite lookup_insert_eq.
  - rewrite lookup_insert_ne by done. by rewrite lookup_insert_eq.
  - by rewrite lookup_insert_eq.
  - rewrite !lookup_insert_ne by done. by rewrite lookup_insert_eq.
  - by rewrite lookup_insert_eq.
  - rewrite lookup_insert_ne by done. by rewrite lookup_insert_eq.
Qed.

End SavedQueryProperties.

(** ** The middleware *)

Lemma starts_with_spec (p s : string) :
  starts_with p s = true ↔ ∃ post, s = p +:+ post.
Proof.
  revert s. induction p as [|a p IH]; intros s; simpl.
  - split; [intros _; by exists s | done].
  - destruct s as [|b s].
    + split; [done | intros [post H]; discriminate].
    + rewrite andb_true_iff, bool_decide_eq_true, IH. split.
      * intros [-> [post ->]]. by exists post.
      * intros [post H]. injection H as Ha Hs. subst. eauto.
Qed.

Lemma contains_spec (needle haystack : string) :
  contains needle haystack = true ↔ ∃ pre post, haystack = pre +:+ needle +:+ post.
Proof.
  induction haystack as [|c rest IH]; simpl.
  - rewrite orb_false_r, starts_with_spec. split.
    + intros [post H]. by exists "", post.
    + intros (pre & post & H). destruct pre; [by exists post | discriminate].
  - rewrite orb_true_iff, starts_with_spec, IH. split.
    + intros [[post H]|(pre & post & H)].
      * by exists "", post.
      * exists (String c pre), post. simpl. by rewrite H.
    + intros (pre & post & H). destruct pre as [|c' pre].
      * left. by exists post.
      * right. injection H as -> ->. by exists pre, post.
Qed.

Section MiddlewareProperties.

Variable Response : Type.
Variable call_next :
  gmap string stateval → string → result Response * gmap string stateval.

(** A request whose path has ["api/item/0/admin_meta_note"] anywhere in it
    reaches [call_next] with the application marked as the note app, and
    what [dispatch] gives back is what [call_next] gave. *)
Theorem dispatch_note_path (state : gmap string stateval) (pre post : string) :
  dispatch Response call_next state (pre +:+ "api/item/0/admin_meta_note" +:+ post)
  = call_next
      (<["DWATA_APP_NAME" := SStr "note"]> (<["IS_DWATA_APP" := SBool true]> state))
      (pre +:+ "api/item/0/admin_meta_note" +:+ post).
Proof.
  unfold dispatch, mark_dwata_app.
  by rewrite (proj2 (contains_spec _ _) (ex_intro _ pre (ex_intro _ post eq_refl))).
Qed.

(** A request whose path does not have it reaches [call_next] with the
    application state untouched. *)
Theorem dispatch_other_path (state : gmap string stateval) (path : string)
        (Hother : ∀ pre post, path ≠ pre +:+ "api/item/0/admin_meta_note" +:+ post) :
  dispatch Response call_next state path = call_next state path.
Proof.
  unfold dispatch, mark_dwata_app.
  destruct (contains _ path) eqn:Hc; [|done].
  apply contains_spec in Hc as (pre & post & H). by destruct (Hother pre post).
Qed.

(** The mark is never taken back: once the application state carries both
    attributes, every later request, on whatever path, reaches [call_next]
    with that same state. *)
Theorem dispatch_keeps_mark (state : gmap string stateval) (path : string)
        (Hflag : state !! "IS_DWATA_APP" = Some (SBool true))
        (Hname : state !! "DWATA_APP_NAME" = Some (SStr "note")) :
  dispatch Response call_next state path = call_next state path.
Proof.
  unfold dispatch, mark_dwata_app. destruct (contains _ path); [|done].
  rewrite (insert_id state "IS_DWATA_APP") by done.
  by rewrite (insert_id state "DWATA_APP_NAME").
Qed.

End MiddlewareProperties.

(** ** The further properties at concrete inputs *)

(** The registry of the settings with the database ["crm"] and the github
    entries ["gh"] and ["crm"]. *)
Lemma registry_labels_in_order_witness :
  (fun d : descriptor => d !! 0%nat)
    <$> [[PStr "crm"; PStr "database"; PStr "mysql"; PDict []];
         dwata_meta_descriptor;
         [PStr "gh"; PStr "service"; PStr "github"];
         [PStr "crm"; PStr "service"; PStr "github"]]
  = (fun l => Some (PStr l))
      <$> (keys [("crm", [("db_url", "mysql://host/crm")])]
             ++ "dwata_meta" :: concat (section_keys cfg_crm <$> ["slack"; "github"])) ∧
  length [[PStr "crm"; PStr "database"; PStr "mysql"; PDict []];
          dwata_meta_descriptor;
          [PStr "gh"; PStr "service"; PStr "github"];
          [PStr "crm"; PStr "service"; PStr "github"]]
  = S (length [("crm", [("db_url", "mysql://host/crm")])]
       + length (concat (section_keys cfg_crm <$> ["slack"; "github"]))).
Proof.
  refine (registry_labels_in_order ["slack"; "github"] url_scheme (Return cfg_crm)
            cfg_crm [("crm", [("db_url", "mysql://host/crm")])] _ eq_refl _ _);
    by vm_compute.
Defined.

(** The label ["nope"] against the sales settings. *)
Lemma get_source_settings_unknown_label_witness :
  get_source_settings ["github"] url_scheme (Return cfg_sales) "nope" = Raise IndexError.
Proof.
  refine (get_source_settings_unknown_label ["github"] url_scheme (Return cfg_sales)
            [[PStr "sales"; PStr "database"; PStr "postgres"; PDict []];
             dwata_meta_descriptor] "nope" _ _).
  - by vm_compute.
  - intros d Hd Hl.
    apply elem_of_cons in Hd as [->|Hd]; [by vm_compute in Hl |].
    apply list_elem_of_singleton in Hd as ->. by vm_compute in Hl.
Defined.

(** The github entry ["gh"] resolves. *)
Lemma listed_label_resolves_witness :
  ∃ value, get_source_settings ["github"] url_scheme (Return cfg_crm) "gh"
           = Return (Some value).
Proof.
  refine (listed_label_resolves ["github"] url_scheme (Return cfg_crm)
            [[PStr "crm"; PStr "database"; PStr "mysql"; PDict []];
             dwata_meta_descriptor;
             [PStr "gh"; PStr "service"; PStr "github"];
             [PStr "crm"; PStr "service"; PStr "github"]]
            [PStr "gh"; PStr "service"; PStr "github"] "gh" _ _ _).
  - by vm_compute.
  - apply elem_of_cons. right. apply elem_of_cons. right. apply elem_of_cons. by left.
  - by vm_compute.
Defined.

(** What ["gh"] resolves to is the entry of the github section. *)
Lemma resolved_settings_come_from_settings_witness :
  ∃ settings value,
    Return cfg_crm = Return settings ∧ Some [("token", "t1")] = Some value ∧
    ((∃ items, settings !! "DATABASES" = Some items ∧ dict_get items "gh" = Return value)
     ∨ (∃ sname sec, sname ∈ ["github"] ∧ settings !! upper sname = Some sec ∧
                     dict_get sec "gh" = Return value)).
Proof.
  refine (resolved_settings_come_from_settings ["github"] url_scheme (Return cfg_crm)
            "gh" (Some [("token", "t1")]) _ _).
  - discriminate.
  - by vm_compute.
Defined.

(** The empty batch against the sales settings. *)
Lemma refresh_success_only_on_empty_batch_witness :
  refresh ["github"] url_scheme (Return cfg_sales) always_connect reflect_ab ticking
          [] world_sales
  = (Return RStatusSuccess, world_sales) ∧
  @nil string = [] ∧ world_sales = world_sales.
Proof.
  split; [by vm_compute |].
  refine (refresh_success_only_on_empty_batch ["github"] url_scheme (Return cfg_sales)
            always_connect reflect_ab ticking [] world_sales world_sales _).
  by vm_compute.
Defined.

(** The database section gives ["dwata_meta"] a PostgreSQL URL; the label
    resolves to that database descriptor, and the run ends at line 20. *)
Lemma refresh_database_label_raises_NameError_witness :
  refresh ["github"] url_scheme (Return cfg_clash) always_connect reflect_ab ticking
          ["dwata_meta"; "nope"] world_meta
  = (Raise (NameError "dwata_meta_db"), world_meta).
Proof.
  refine (refresh_database_label_raises_NameError ["github"] url_scheme (Return cfg_clash)
            always_connect reflect_ab ticking
            [[PStr "dwata_meta"; PStr "database"; PStr "postgres"; PDict []];
             dwata_meta_descriptor;
             [PStr "dwata_meta"; PStr "service"; PStr "github"]]
            "dwata_meta" ["nope"]
            [PStr "dwata_meta"; PStr "database"; PStr "postgres"; PDict []]
            world_meta _ _ _);
    by vm_compute.
Defined.

(** The entry ["legacy"] has a ["url"] and no ["db_url"]. *)
Lemma malformed_database_entry_witness :
  ∃ e,
    get_all_sources ["github"] url_scheme (Return cfg_broken) = Raise e ∧
    (∀ l, l ≠ "dwata_meta" →
          get_source_settings ["github"] url_scheme (Return cfg_broken) l = Raise e) ∧
    (∀ labels w,
       refresh ["github"] url_scheme (Return cfg_broken) always_connect reflect_ab ticking
               labels w
       = (Raise e, w)).
Proof.
  refine (malformed_database_entry ["github"] url_scheme (Return cfg_broken)
            always_connect reflect_ab ticking cfg_broken
            [("sales", [("db_url", "postgres://host/salesdb")]);
             ("legacy", [("url", "mysql://host/legacy")])]
            "legacy" [("url", "mysql://host/legacy")] eq_refl _ _ _).
  - by vm_compute.
  - apply elem_of_cons. right. apply elem_of_cons. by left.
  - unfold keys. simpl. intros H. apply list_elem_of_singleton in H. discriminate.
Defined.

(** A row without specification: [KeyError], and the row is stamped. *)
Lemma pre_insert_failure_witness :
  saved_query_pre_insert rowval RDatetime RBytes quote_json 1000 row_bare
  = (Raise (KeyError "query_specification"), <["created_at" := RDatetime 1000]> row_bare) ∧
  row_bare !! "query_specification" = None.
Proof.
  split; [by vm_compute |].
  destruct (pre_insert_failure rowval RDatetime RBytes quote_json 1000 row_bare
              (<["created_at" := RDatetime 1000]> row_bare)
              (KeyError "query_specification") eq_refl)
    as [_ [[_ Hnone]|(q & Hq & _)]]; [exact Hnone | by vm_compute in Hq].
Defined.

(** A row with the specification ["select"]. *)
Lemma pre_insert_result_witness :
  ∃ d,
    saved_query_pre_insert rowval RDatetime RBytes quote_json 1000 row_q1 = (Return d, d) ∧
    d !! "created_at" = Some (RDatetime 1000) ∧
    d !! "query_specification" = Some (RBytes (json_text (RStr "select"))) ∧
    dom d = {["created_at"]} ∪ dom row_q1.
Proof.
  refine (pre_insert_result rowval RDatetime RBytes quote_json 1000 row_q1
            (RStr "select") (json_text (RStr "select")) _ _);
    by vm_compute.
Defined.

(** The same row, inserted at 1000 and updated at 2000, with an encoder
    that reads bytes as text. *)
Lemma pre_update_after_pre_insert_witness :
  ∃ d1,
    saved_query_pre_insert rowval RDatetime RBytes quote_json 1000 row_q1 = (Return d1, d1) ∧
    ∃ d2,
      d2 !! "created_at" = Some (RDatetime 1000) ∧
      d2 !! "modified_at" = Some (RDatetime 2000) ∧
      saved_query_pre_update rowval RDatetime RBytes quote_json 2000 d1 = (Return d2, d2) ∧
      d2 !! "query_specification"
        = Some (RBytes (json_text (RBytes (json_text (RStr "select"))))).
Proof.
  exact (pre_update_after_pre_insert rowval RDatetime RBytes quote_json 1000 2000 row_q1
           (RStr "select") (json_text (RStr "select")) eq_refl eq_refl).
Defined.

(** A request for the saved queries. *)
Lemma dispatch_other_path_witness :
  dispatch string echo_handler ∅ "/api/item/0/saved_query"
  = echo_handler ∅ "/api/item/0/saved_query".
Proof.
  refine (dispatch_other_path string echo_handler ∅ "/api/item/0/saved_query" _).
  intros pre post H.
  assert (contains "api/item/0/admin_meta_note" "/api/item/0/saved_query" = true) as Hc
    by (apply contains_spec; eauto).
  by vm_compute in Hc.
Defined.

(** A request for the saved queries after the application was marked. *)
Lemma dispatch_keeps_mark_witness :
  dispatch string echo_handler marked_state "/api/item/0/saved_query"
  = echo_handler marked_state "/api/item/0/saved_query".
Proof.
  refine (dispatch_keeps_mark string echo_handler marked_state
            "/api/item/0/saved_query" _ _);
    by vm_compute.
Defined.
